(** * Cookbook/models.py: the entity layer of the recipe catalogue

    A shallow embedding of the Django models of [Cookbook/models.py] and of
    the query sets their methods build.  The database is a record of
    tables, each table a list of rows in storage order; a query set is the
    list of rows its SQL statement selects: [filter] over a relation is an
    inner join, [order_by] a sort, [count] a length, [exists] a
    non-emptiness test.  Methods that write take the store and return the
    new one.

    Model instances are saved rows: their primary key [id] is set.  The
    audit columns [created] and [modified] inherited from
    [TimeStampedModel] hold wall-clock times and are left out. *)

From stdpp Require Import list sets sorting strings.

(** ** Rows *)

(** Every model has the integer primary key [id] of [models.Model]. *)
Class Model (A : Type) := pk : A → Z.

Record CookbookTag := {
  tag_id : Z;
  tag_name : string;
  tag_priority : Z;
  tag_cookbook_sum : Z
}.

Record Material := {
  material_id : Z;
  material_name : string;
  material_detail : string;
  material_type : Z;
  material_img_url : string
}.

Record Step := {
  step_id : Z;
  step_name : string;
  step_detail : string;
  step_priority : Z;
  step_img_url : string;
  step_duration : Z;
  step_cookbook_id : Z
}.

Record Cookbook := {
  cookbook_id : Z;
  cookbook_name : string;
  cookbook_url_video : string;
  cookbook_url_cover_image : string;
  cookbook_description : string;
  cookbook_checked : bool
}.

Record TagCookbookRelationship := {
  tcr_id : Z;
  tcr_cookbook_id : Z;
  tcr_tag_id : Z;
  tcr_like : Z;
  tcr_unlike : Z
}.

Record MaterialStepRelationship := {
  msr_id : Z;
  msr_step_id : Z;
  msr_material_id : Z;
  msr_amount : string;
  msr_priority : Z
}.

#[export] Instance CookbookTag_Model : Model CookbookTag := tag_id.
#[export] Instance Material_Model : Model Material := material_id.
#[export] Instance Step_Model : Model Step := step_id.
#[export] Instance Cookbook_Model : Model Cookbook := cookbook_id.
#[export] Instance TagCookbookRelationship_Model :
  Model TagCookbookRelationship := tcr_id.
#[export] Instance MaterialStepRelationship_Model :
  Model MaterialStepRelationship := msr_id.

(** ** The store *)

Record Store := {
  tag_rows : list CookbookTag;
  material_rows : list Material;
  step_rows : list Step;
  cookbook_rows : list Cookbook;
  tcr_rows : list TagCookbookRelationship;
  msr_rows : list MaterialStepRelationship
}.

(** ** Generic row operations of [models.Model] and [models.Manager] *)

Section manager.
Context {A : Type} `{Model A}.

(** The key an [AutoField] gives to the next inserted row: one above the
    keys in use.  A database sequence may skip values; what the
    properties below rely on is that the key is new. *)
Definition next_pk (rows : list A) : Z :=
  (1 + foldr Z.max 0 (pk <$> rows))%Z.

(** [instance.save()]: UPDATE of the row with the instance's key, INSERT
    when no row has it. *)
Definition save_row (x : A) (rows : list A) : list A :=
  if decide (pk x ∈ pk <$> rows)
  then (λ y, if decide (pk y = pk x) then x else y) <$> rows
  else rows ++ [x].

(** [Manager.get(pk=k)], [None] for [DoesNotExist]. *)
Definition get_row (k : Z) (rows : list A) : option A :=
  snd <$> list_find (λ y, pk y = k) rows.

(** DELETE ... WHERE id IN (ks). *)
Definition delete_rows (ks : list Z) (rows : list A) : list A :=
  filter (λ y, pk y ∉ ks) rows.
End manager.

(** ** Step *)

(** The rows of [self.material_set]:
    SELECT ... FROM material INNER JOIN materialsteprelationship r
    ON material.id = r.material_id WHERE r.step_id = self.id,
    each Material together with the join row that selects it. *)
Definition material_set (self : Step) (db : Store)
  : list (MaterialStepRelationship * Material) :=
  m ← material_rows db;
  (λ r, (r, m)) <$>
    filter (λ r, msr_material_id r = material_id m ∧ msr_step_id r = step_id self)
           (msr_rows db).

(** ORDER BY materialsteprelationship.priority ASC, material.id ASC. *)
Definition material_order : relation (MaterialStepRelationship * Material) :=
  λ x y, (msr_priority x.1 < msr_priority y.1)%Z
         ∨ (msr_priority x.1 = msr_priority y.1 ∧ (material_id x.2 ≤ material_id y.2)%Z).

#[export] Instance material_order_dec x y : Decision (material_order x y).
Proof. unfold material_order. apply _. Defined.

(** The ordered query set, join columns included.  [order_by] names a
    column of the join table the related manager has already joined, and
    Django reuses that join: the priority read for a Material is the one
    of the row that links it to this Step.  The sort is a stable merge
    sort over the join in storage order; [get_material_set_unique] below
    shows that the Materials listed do not depend on that choice. *)
Definition get_material_set_rows (self : Step) (db : Store)
  : list (MaterialStepRelationship * Material) :=
  merge_sort material_order (material_set self db).

Definition get_material_set (self : Step) (db : Store) : list Material :=
  snd <$> get_material_set_rows self db.

Definition get_material_set_by_type (self : Step) (material_type_value : Z)
    (db : Store) : list Material :=
  filter (λ material, material_type material = material_type_value)
         (get_material_set self db).

(** [Cookbook/defines.py] is not part of the sources at hand: the values
    of the three members of the [MaterialType] enumeration are taken as
    parameters. *)
Record MaterialType := {
  FOOD : Z;
  CONDIMENT : Z;
  TOOL : Z
}.

Section material_views.
Context (MaterialType_value : MaterialType).

Definition materials_food (self : Step) (db : Store) : list Material :=
  get_material_set_by_type self (FOOD MaterialType_value) db.

Definition materials_tool (self : Step) (db : Store) : list Material :=
  get_material_set_by_type self (TOOL MaterialType_value) db.

Definition materials_condiment (self : Step) (db : Store) : list Material :=
  get_material_set_by_type self (CONDIMENT MaterialType_value) db.
End material_views.

(** ** Query set evaluation *)

(** [QuerySet.count()]. *)
Definition count {A} (qs : list A) : Z := Z.of_nat (length qs).

(** [QuerySet.exists()]. *)
Definition exists_ {A} (qs : list A) : bool :=
  match qs with
  | [] => false
  | _ :: _ => true
  end.

(** ** Writing one table of the store *)

Definition set_tag_rows (rows : list CookbookTag) (db : Store) : Store :=
  {| tag_rows := rows;
     material_rows := material_rows db;
     step_rows := step_rows db;
     cookbook_rows := cookbook_rows db;
     tcr_rows := tcr_rows db;
     msr_rows := msr_rows db |}.

Definition set_cookbook_rows (rows : list Cookbook) (db : Store) : Store :=
  {| tag_rows := tag_rows db;
     material_rows := material_rows db;
     step_rows := step_rows db;
     cookbook_rows := rows;
     tcr_rows := tcr_rows db;
     msr_rows := msr_rows db |}.

Definition set_tcr_rows (rows : list TagCookbookRelationship) (db : Store)
  : Store :=
  {| tag_rows := tag_rows db;
     material_rows := material_rows db;
     step_rows := step_rows db;
     cookbook_rows := cookbook_rows db;
     tcr_rows := rows;
     msr_rows := msr_rows db |}.

(** ** CookbookTag *)

(** The rows of [self.cookbook_set]:
    SELECT ... FROM cookbook INNER JOIN tagcookbookrelationship r
    ON cookbook.id = r.cookbook_id WHERE r.tag_id = self.id. *)
Definition cookbook_set (self : CookbookTag) (db : Store) : list Cookbook :=
  c ← cookbook_rows db;
  (λ _, c) <$>
    filter (λ r, tcr_cookbook_id r = cookbook_id c ∧ tcr_tag_id r = tag_id self)
           (tcr_rows db).

Definition set_cookbook_sum (n : Z) (self : CookbookTag) : CookbookTag :=
  {| tag_id := tag_id self;
     tag_name := tag_name self;
     tag_priority := tag_priority self;
     tag_cookbook_sum := n |}.

(** Returns the instance as the assignment leaves it and the store after
    [self.save()]. *)
Definition update_cookbook_sum (self : CookbookTag) (db : Store)
  : CookbookTag * Store :=
  let self' := set_cookbook_sum (count (cookbook_set self db)) self in
  (self', set_tag_rows (save_row self' (tag_rows db)) db).

(** ** Cookbook *)

(** [objects = models.Manager()]: the base query set. *)
Definition objects (db : Store) : list Cookbook := cookbook_rows db.

(** [public = CookbookPublicManager()]: [get_queryset] narrows the base
    query set to [checked=True]. *)
Definition public (db : Store) : list Cookbook :=
  filter (λ c, cookbook_checked c = true) (objects db).

(** [Material.objects.filter(step__cookbook=self)]:
    SELECT material.* FROM material
    INNER JOIN materialsteprelationship r ON material.id = r.material_id
    INNER JOIN step s ON r.step_id = s.id
    WHERE s.cookbook_id = self.id. *)
Definition materials (self : Cookbook) (db : Store) : list Material :=
  m ← material_rows db;
  r ← filter (λ r, msr_material_id r = material_id m) (msr_rows db);
  s ← filter (λ s, step_id s = msr_step_id r ∧ step_cookbook_id s = cookbook_id self)
             (step_rows db);
  [m].

(** [TagCookbookRelationship.objects.filter(cookbook=..., tag=...)]. *)
Definition tcr_filter (cookbook : Cookbook) (tag : CookbookTag) (db : Store)
  : list TagCookbookRelationship :=
  filter (λ r, tcr_cookbook_id r = cookbook_id cookbook ∧ tcr_tag_id r = tag_id tag)
         (tcr_rows db).

(** [TagCookbookRelationship.objects.create(tag=..., cookbook=...)]: the
    counters take their field default 0. *)
Definition tcr_create (tag : CookbookTag) (cookbook : Cookbook) (db : Store)
  : TagCookbookRelationship * Store :=
  let r := {| tcr_id := next_pk (tcr_rows db);
              tcr_cookbook_id := cookbook_id cookbook;
              tcr_tag_id := tag_id tag;
              tcr_like := 0;
              tcr_unlike := 0 |} in
  (r, set_tcr_rows (tcr_rows db ++ [r]) db).

Definition add_tag (self : Cookbook) (tag : CookbookTag) (db : Store) : Store :=
  if exists_ (tcr_filter self tag db) then db
  else (tcr_create tag self db).2.

(** [Cookbook.objects.create(...)]. *)
Definition cookbook_create (name url_video url_cover_image description : string)
    (checked : bool) (db : Store) : Cookbook * Store :=
  let c := {| cookbook_id := next_pk (cookbook_rows db);
              cookbook_name := name;
              cookbook_url_video := url_video;
              cookbook_url_cover_image := url_cover_image;
              cookbook_description := description;
              cookbook_checked := checked |} in
  (c, set_cookbook_rows (cookbook_rows db ++ [c]) db).

(** The assignment [self.checked = b]. *)
Definition set_checked (b : bool) (self : Cookbook) : Cookbook :=
  {| cookbook_id := cookbook_id self;
     cookbook_name := cookbook_name self;
     cookbook_url_video := cookbook_url_video self;
     cookbook_url_cover_image := cookbook_url_cover_image self;
     cookbook_description := cookbook_description self;
     cookbook_checked := b |}.

(** [self.save()] on a Cookbook. *)
Definition cookbook_save (self : Cookbook) (db : Store) : Store :=
  set_cookbook_rows (save_row self (cookbook_rows db)) db.

(** [self.delete()] on a Cookbook.  The deletion collector follows the
    foreign keys declared with [on_delete=models.CASCADE]: the Steps whose
    [cookbook] is [self], the MaterialStepRelationship rows whose [step] is
    one of those, and the TagCookbookRelationship rows whose [cookbook] is
    [self].  No foreign key points from Material or CookbookTag to them. *)
Definition cookbook_delete (self : Cookbook) (db : Store) : Store :=
  let steps := filter (λ s, step_cookbook_id s = cookbook_id self) (step_rows db) in
  let step_ids := pk <$> steps in
  {| tag_rows := tag_rows db;
     material_rows := material_rows db;
     step_rows := delete_rows step_ids (step_rows db);
     cookbook_rows := delete_rows [cookbook_id self] (cookbook_rows db);
     tcr_rows := filter (λ r, tcr_cookbook_id r ∉ [cookbook_id self]) (tcr_rows db);
     msr_rows := filter (λ r, msr_step_id r ∉ step_ids) (msr_rows db) |}.

(** ** Integrity constraints the database keeps *)

(** PRIMARY KEY: no two rows of a table share their [id]. *)
Definition pk_unique {A} `{Model A} (rows : list A) : Prop :=
  NoDup (pk <$> rows).

(** FOREIGN KEY of the tag join rows to [cookbook]. *)
Definition tcr_cookbook_fk (db : Store) : Prop :=
  ∀ r, r ∈ tcr_rows db → tcr_cookbook_id r ∈ pk <$> cookbook_rows db.

(** At most one join row per (cookbook, tag) pair: what [add_tag] keeps,
    no constraint of the table. *)
Definition tcr_pair_unique (db : Store) : Prop :=
  NoDup ((λ r, (tcr_cookbook_id r, tcr_tag_id r)) <$> tcr_rows db).

(** ** Counting *)

(** How many entries of a query set are the record with key [k]. *)
Definition occurrences {A} `{Model A} (k : Z) (qs : list A) : nat :=
  length (filter (λ x, pk x = k) qs).

(** The join rows that link Material [m] to a Step owned by Cookbook [c]. *)
Definition links (c : Cookbook) (m : Material) (db : Store)
  : list MaterialStepRelationship :=
  filter (λ r, msr_material_id r = material_id m
               ∧ Exists (λ s, step_id s = msr_step_id r
                              ∧ step_cookbook_id s = cookbook_id c) (step_rows db))
         (msr_rows db).

(** The join rows of tag [t]. *)
Definition tag_links (t : CookbookTag) (db : Store)
  : list TagCookbookRelationship :=
  filter (λ r, tcr_tag_id r = tag_id t) (tcr_rows db).

(** The number of distinct Cookbooks associated with tag [t]: the
    cookbooks named by its join rows, each counted once. *)
Definition distinct_cookbooks (t : CookbookTag) (db : Store) : Z :=
  Z.of_nat (length (remove_dups (tcr_cookbook_id <$> tag_links t db))).

(** The columns of an ordered row that the caller of [get_material_set]
    can observe or that decide its place: the join priority and the
    Material. *)
Definition shown (x : MaterialStepRelationship * Material) : Z * Material :=
  (msr_priority x.1, x.2).

Definition shown_order : relation (Z * Material) :=
  λ a b, (a.1 < b.1)%Z ∨ (a.1 = b.1 ∧ (material_id a.2 ≤ material_id b.2)%Z).

(** ** The other cascades *)

(** [self.delete()] on a Step: the join rows whose [step] is [self] go
    with it ([on_delete=models.CASCADE] of MaterialStepRelationship.step). *)
Definition step_delete (self : Step) (db : Store) : Store :=
  {| tag_rows := tag_rows db;
     material_rows := material_rows db;
     step_rows := delete_rows [step_id self] (step_rows db);
     cookbook_rows := cookbook_rows db;
     tcr_rows := tcr_rows db;
     msr_rows := filter (λ r, msr_step_id r ∉ [step_id self]) (msr_rows db) |}.

(** [self.delete()] on a Material: the join rows whose [material] is
    [self] go with it (MaterialStepRelationship.material). *)
Definition material_delete (self : Material) (db : Store) : Store :=
  {| tag_rows := tag_rows db;
     material_rows := delete_rows [material_id self] (material_rows db);
     step_rows := step_rows db;
     cookbook_rows := cookbook_rows db;
     tcr_rows := tcr_rows db;
     msr_rows := filter (λ r, msr_material_id r ∉ [material_id self])
                        (msr_rows db) |}.

(** [self.delete()] on a CookbookTag: the join rows whose [tag] is [self]
    go with it (TagCookbookRelationship.tag). *)
Definition tag_delete (self : CookbookTag) (db : Store) : Store :=
  {| tag_rows := delete_rows [tag_id self] (tag_rows db);
     material_rows := material_rows db;
     step_rows := step_rows db;
     cookbook_rows := cookbook_rows db;
     tcr_rows := filter (λ r, tcr_tag_id r ∉ [tag_id self]) (tcr_rows db);
     msr_rows := msr_rows db |}.

(** ** The forward side of the tag relation *)

(** The rows of [self.tag_set] on a Cookbook:
    SELECT ... FROM cookbooktag INNER JOIN tagcookbookrelationship r
    ON cookbooktag.id = r.tag_id WHERE r.cookbook_id = self.id. *)
Definition tag_set (self : Cookbook) (db : Store) : list CookbookTag :=
  t ← tag_rows db;
  (λ _, t) <$>
    filter (λ r, tcr_tag_id r = tag_id t ∧ tcr_cookbook_id r = cookbook_id self)
           (tcr_rows db).

(** ** Text *)

(** [Material.__str__]. *)
Definition material_str (self : Material) : string := material_name self.

(** [CookbookTag.__str__] and [__repr__]. *)
Definition tag_str (self : CookbookTag) : string := tag_name self.

Definition tag_repr (self : CookbookTag) : string :=
  "<CookbookTag>" +:+ tag_str self.

(** [Step.__str__] and [__repr__]. *)
Definition step_str (self : Step) : string := "<步骤>" +:+ step_name self.

Definition step_repr (self : Step) : string :=
  "<CookbookStep>" +:+ step_str self.

(** [Cookbook.__str__] and [__repr__]. *)
Definition cookbook_str (self : Cookbook) : string := cookbook_name self.

Definition cookbook_repr (self : Cookbook) : string :=
  "<Cookbook>" +:+ cookbook_name self.

(** [TagCookbookRelationship.__str__] on a row read from the table:
    [self.cookbook] and [self.tag] fetch the rows referred to, and raise
    [DoesNotExist] ([None]) when one is missing. *)
Definition tcr_str (self : TagCookbookRelationship) (db : Store)
  : option string :=
  c ← get_row (tcr_cookbook_id self) (cookbook_rows db);
  t ← get_row (tcr_tag_id self) (tag_rows db);
  Some (cookbook_name c +:+ " - " +:+ tag_name t).

(** [MaterialStepRelationship.__str__], likewise. *)
Definition msr_str (self : MaterialStepRelationship) (db : Store)
  : option string :=
  s ← get_row (msr_step_id self) (step_rows db);
  m ← get_row (msr_material_id self) (material_rows db);
  Some (step_name s +:+ " - " +:+ material_name m).

(** [Step.admin_material_set_list]; [mark_safe] leaves the text as it
    is. *)
Definition admin_material_set_list (self : Step) (db : Store) : string :=
  let materials := get_material_set self db in
  if (0 <? length materials)%nat
  then String.concat "<br>" (material_str <$> get_material_set self db)
  else "".

(** ** Integrity of the whole store *)

(** PRIMARY KEY of each of the six tables. *)
Definition keys_unique (db : Store) : Prop :=
  pk_unique (tag_rows db) ∧ pk_unique (material_rows db)
  ∧ pk_unique (step_rows db) ∧ pk_unique (cookbook_rows db)
  ∧ pk_unique (tcr_rows db) ∧ pk_unique (msr_rows db).

(** FOREIGN KEY of each of the five references: no row points to a row
    that is not stored. *)
Definition references_kept (db : Store) : Prop :=
  (∀ s, s ∈ step_rows db → step_cookbook_id s ∈ pk <$> cookbook_rows db)
  ∧ (∀ r, r ∈ tcr_rows db → tcr_cookbook_id r ∈ pk <$> cookbook_rows db)
  ∧ (∀ r, r ∈ tcr_rows db → tcr_tag_id r ∈ pk <$> tag_rows db)
  ∧ (∀ r, r ∈ msr_rows db → msr_step_id r ∈ pk <$> step_rows db)
  ∧ (∀ r, r ∈ msr_rows db → msr_material_id r ∈ pk <$> material_rows db).

(** ** Sample records *)

Module Sample.
Definition material (i : Z) (name : string) (type : Z) : Material :=
  {| material_id := i; material_name := name; material_detail := "";
     material_type := type; material_img_url := "" |}.

Definition step (i cookbook : Z) : Step :=
  {| step_id := i; step_name := ""; step_detail := ""; step_priority := 0;
     step_img_url := ""; step_duration := 0; step_cookbook_id := cookbook |}.

Definition link (i step material priority : Z) : MaterialStepRelationship :=
  {| msr_id := i; msr_step_id := step; msr_material_id := material;
     msr_amount := ""; msr_priority := priority |}.

Definition cookbook (i : Z) (checked : bool) : Cookbook :=
  {| cookbook_id := i; cookbook_name := ""; cookbook_url_video := "";
     cookbook_url_cover_image := ""; cookbook_description := "";
     cookbook_checked := checked |}.

Definition tag (i : Z) (name : string) (sum : Z) : CookbookTag :=
  {| tag_id := i; tag_name := name; tag_priority := 0;
     tag_cookbook_sum := sum |}.

Definition tagged (i cookbook tag : Z) : TagCookbookRelationship :=
  {| tcr_id := i; tcr_cookbook_id := cookbook; tcr_tag_id := tag;
     tcr_like := 0; tcr_unlike := 0 |}.

Definition types : MaterialType := {| FOOD := 1; CONDIMENT := 2; TOOL := 3 |}.

(** One cookbook with two steps; salt is used in both, and twice in the
    first one. *)
Definition kitchen : Store :=
  {| tag_rows := [tag 1 "quick" 0; tag 2 "spicy" 7];
     material_rows := [material 3 "salt" 2; material 1 "egg" 1;
                       material 2 "pan" 3];
     step_rows := [step 1 1; step 2 1; step 3 2];
     cookbook_rows := [cookbook 1 false; cookbook 2 true];
     tcr_rows := [tagged 1 1 1];
     msr_rows := [link 1 1 3 0; link 2 1 1 0; link 3 1 2 (-1);
                  link 4 2 3 0; link 5 1 3 5; link 6 3 1 0] |}.

(** The same (cookbook, tag) pair joined by two rows, as a direct insert
    into the join table leaves it. *)
Definition doubled : Store :=
  set_tcr_rows [tagged 1 1 1; tagged 2 1 1] kitchen.
End Sample.

(** * Properties *)

(** ** The display order *)

#[export] Instance material_order_trans : Transitive material_order.
Proof. unfold material_order. intros x y z ??. lia. Qed.

#[export] Instance material_order_total : Total material_order.
Proof. unfold material_order. intros x y. lia. Qed.

Lemma material_order_shown x y :
  material_order x y → shown_order (shown x) (shown y).
Proof. done. Qed.

Lemma StronglySorted_lookup {A} (R : relation A) (l : list A) i j x y :
  StronglySorted R l → i < j → l !! i = Some x → l !! j = Some y → R x y.
Proof.
  intros Hs. revert i j. induction Hs as [|a l Hs IH Ha]; intros i j Hij Hi Hj.
  - by rewrite lookup_nil in Hi.
  - destruct j as [|j]; [lia|]. destruct i as [|i]; simplify_eq/=.
    + rewrite Forall_forall in Ha. eauto using list_elem_of_lookup_2.
    + apply (IH i j); [lia|done..].
Qed.

Lemma get_material_set_rows_sorted self db :
  StronglySorted material_order (get_material_set_rows self db).
Proof. apply (StronglySorted_merge_sort _). Qed.

Lemma get_material_set_rows_perm self db :
  get_material_set_rows self db ≡ₚ material_set self db.
Proof. apply merge_sort_Permutation. Qed.

Lemma elem_of_material_set self db r m :
  (r, m) ∈ material_set self db ↔
  m ∈ material_rows db ∧ r ∈ msr_rows db
  ∧ msr_material_id r = material_id m ∧ msr_step_id r = step_id self.
Proof.
  unfold material_set. rewrite list_elem_of_bind. split.
  - intros (m' & Hin & Hm'). apply list_elem_of_fmap in Hin as (r' & Heq & Hr').
    simplify_eq. rewrite list_elem_of_filter in Hr'. by destruct Hr' as [[??] ?].
  - intros (Hm & Hr & ? & ?). exists m. split; [|done].
    apply list_elem_of_fmap. exists r. split; [done|].
    by apply list_elem_of_filter.
Qed.

Lemma NoDup_fmap_inj_elem {A B} (f : A → B) (l : list A) x y :
  NoDup (f <$> l) → x ∈ l → y ∈ l → f x = f y → x = y.
Proof.
  induction l as [|a l IH]; [by inversion 2|].
  rewrite fmap_cons, NoDup_cons, !elem_of_cons.
  intros [Ha Hn] [->|Hx] [->|Hy] Heq; auto.
  - destruct Ha. rewrite Heq. by apply list_elem_of_fmap_2.
  - destruct Ha. rewrite <-Heq. by apply list_elem_of_fmap_2.
Qed.

(** A primary key names one row. *)
Lemma pk_unique_inj {A} `{Model A} (rows : list A) x y :
  pk_unique rows → x ∈ rows → y ∈ rows → pk x = pk y → x = y.
Proof. apply NoDup_fmap_inj_elem. Qed.

(** Two rows of the join with the same sort key show the same Material. *)
Lemma material_set_key_inj self db x y :
  pk_unique (material_rows db) →
  x ∈ material_set self db → y ∈ material_set self db →
  material_id x.2 = material_id y.2 → x.2 = y.2.
Proof.
  intros Hu Hx Hy Hid. destruct x as [rx mx], y as [ry my]; simpl in *.
  apply elem_of_material_set in Hx as (Hx & _), Hy as (Hy & _).
  by apply (pk_unique_inj (material_rows db)).
Qed.

(** Whatever sorted arrangement of the join the database hands back, the
    Materials come in the same sequence. *)
Lemma get_material_set_unique self db rows :
  pk_unique (material_rows db) →
  rows ≡ₚ material_set self db →
  StronglySorted material_order rows →
  snd <$> rows = get_material_set self db.
Proof.
  intros Hu Hp Hs. unfold get_material_set.
  assert (shown <$> rows = shown <$> get_material_set_rows self db) as Heq.
  { apply (StronglySorted_unique_strong shown_order).
    - intros a b Ha Hb Hab Hba.
      apply list_elem_of_fmap in Ha as (x & -> & Hx).
      apply list_elem_of_fmap in Hb as (y & -> & Hy).
      rewrite Hp in Hx. rewrite get_material_set_rows_perm in Hy.
      unfold shown_order, shown in *; simpl in *.
      assert (material_id x.2 = material_id y.2) as Hid by lia.
      f_equal; [lia|]. by apply (material_set_key_inj self db).
    - by apply (StronglySorted_fmap _ material_order).
    - apply (StronglySorted_fmap _ material_order); [done|].
      apply get_material_set_rows_sorted.
    - by rewrite Hp, get_material_set_rows_perm. }
  apply (f_equal (fmap snd)) in Heq.
  by rewrite <-!list_fmap_compose in Heq.
Qed.

(** C4: the list [get_material_set] returns is the Material column of the
    join rows of the Step sorted by join priority ascending; of two
    entries with equal join priority the one with the lower Material id
    comes first; and the sequence of Materials is fixed by the stored
    rows: every arrangement of the join that respects the ordering shows
    the same list. *)
Theorem get_material_set_ordered (self : Step) (db : Store) :
  get_material_set self db = snd <$> get_material_set_rows self db
  ∧ get_material_set_rows self db ≡ₚ material_set self db
  ∧ (∀ i j x y,
        i < j →
        get_material_set_rows self db !! i = Some x →
        get_material_set_rows self db !! j = Some y →
        (msr_priority x.1 ≤ msr_priority y.1)%Z
        ∧ (msr_priority x.1 = msr_priority y.1 →
           (material_id x.2 ≤ material_id y.2)%Z))
  ∧ (pk_unique (material_rows db) →
     ∀ rows, rows ≡ₚ material_set self db →
             StronglySorted material_order rows →
             snd <$> rows = get_material_set self db).
Proof.
  split; [done|]. split; [apply get_material_set_rows_perm|]. split.
  - intros i j x y Hij Hi Hj.
    pose proof (StronglySorted_lookup _ _ i j x y
                  (get_material_set_rows_sorted self db) Hij Hi Hj) as Hxy.
    unfold material_order in Hxy. lia.
  - intros Hu rows. by apply get_material_set_unique.
Qed.

Lemma get_material_set_ordered_witness :
  get_material_set (Sample.step 1 1) Sample.kitchen
  = [Sample.material 2 "pan" 3; Sample.material 1 "egg" 1;
     Sample.material 3 "salt" 2; Sample.material 3 "salt" 2]
  ∧ snd <$> [(Sample.link 3 1 2 (-1), Sample.material 2 "pan" 3);
             (Sample.link 2 1 1 0, Sample.material 1 "egg" 1);
             (Sample.link 1 1 3 0, Sample.material 3 "salt" 2);
             (Sample.link 5 1 3 5, Sample.material 3 "salt" 2)]
    = get_material_set (Sample.step 1 1) Sample.kitchen.
Proof.
  split; [reflexivity|].
  destruct (get_material_set_ordered (Sample.step 1 1) Sample.kitchen)
    as (_ & _ & _ & Hunique).
  apply Hunique.
  - unfold pk_unique. apply (bool_decide_unpack _). by vm_compute.
  - vm_compute.
    apply (Permutation_cons_app [_; _; _] [] _); simpl.
    apply (Permutation_cons_app [_; _] [] _); simpl.
    reflexivity.
  - apply (bool_decide_unpack _). by vm_compute.
Defined.

Lemma elem_of_get_material_set self db m :
  m ∈ get_material_set self db ↔
  m ∈ material_rows db
  ∧ ∃ r, r ∈ msr_rows db
         ∧ msr_material_id r = material_id m ∧ msr_step_id r = step_id self.
Proof.
  unfold get_material_set. rewrite list_elem_of_fmap. split.
  - intros ([r m'] & -> & Hin). rewrite get_material_set_rows_perm in Hin.
    apply elem_of_material_set in Hin as (? & ? & ? & ?). eauto.
  - intros (Hm & r & Hr & ? & ?). exists (r, m). split; [done|].
    rewrite get_material_set_rows_perm. by apply elem_of_material_set.
Qed.

(** C5: every Material of [get_material_set_by_type self v] has type [v],
    and the list is a subsequence of [get_material_set self]. *)
Theorem get_material_set_by_type_sound (self : Step) (v : Z) (db : Store) :
  Forall (λ m, material_type m = v) (get_material_set_by_type self v db)
  ∧ get_material_set_by_type self v db `sublist_of` get_material_set self db.
Proof.
  unfold get_material_set_by_type. split.
  - apply Forall_forall. intros m Hm. by apply list_elem_of_filter in Hm as [? _].
  - apply sublist_filter.
Qed.

(** C9: the three views are the typed filter at the value of the FOOD,
    CONDIMENT and TOOL member. *)
Theorem materials_views_by_type (T : MaterialType) (self : Step) (db : Store) :
  materials_food T self db = get_material_set_by_type self (FOOD T) db
  ∧ materials_condiment T self db = get_material_set_by_type self (CONDIMENT T) db
  ∧ materials_tool T self db = get_material_set_by_type self (TOOL T) db.
Proof. done. Qed.

Lemma filter_none {A} (P : A → Prop) `{!∀ x, Decision (P x)} (l : list A) :
  (∀ x, x ∈ l → ¬ P x) → filter P l = [].
Proof.
  induction l as [|a l IH]; intros Hl; [done|].
  rewrite filter_cons_False by (apply Hl; left).
  apply IH. intros x Hx. apply Hl. by right.
Qed.

(** C10: when [v] is the type of no Material linked to the Step,
    [get_material_set_by_type self v] is the empty list; so it is for a
    [v] outside FOOD, CONDIMENT and TOOL when every stored Material has
    one of those types.  The function is total: no value of [v] makes it
    fail. *)
Theorem get_material_set_by_type_foreign (self : Step) (v : Z) (db : Store) :
  ((∀ m, m ∈ get_material_set self db → material_type m ≠ v) →
   get_material_set_by_type self v db = [])
  ∧ (∀ T : MaterialType,
       (∀ m, m ∈ material_rows db →
             material_type m ∈ [FOOD T; CONDIMENT T; TOOL T]) →
       v ∉ [FOOD T; CONDIMENT T; TOOL T] →
       get_material_set_by_type self v db = []).
Proof.
  unfold get_material_set_by_type. split.
  - intros Hv. by apply filter_none.
  - intros T Hall Hv. apply filter_none. intros m Hm Heq.
    apply elem_of_get_material_set in Hm as [Hm _].
    apply Hv. rewrite <-Heq. by apply Hall.
Qed.

Lemma get_material_set_by_type_foreign_witness :
  get_material_set_by_type (Sample.step 2 1) 1 Sample.kitchen = []
  ∧ get_material_set_by_type (Sample.step 1 1) 4 Sample.kitchen = [].
Proof.
  split.
  - apply (get_material_set_by_type_foreign (Sample.step 2 1) 1 Sample.kitchen).
    vm_compute. intros m Hm. by apply list_elem_of_singleton in Hm as ->.
  - apply (get_material_set_by_type_foreign (Sample.step 1 1) 4 Sample.kitchen)
      with (T := Sample.types).
    + intros m Hm. vm_compute in Hm.
      repeat (apply elem_of_cons in Hm as [->|Hm]);
        [apply (bool_decide_unpack _); by vm_compute..|by inversion Hm].
    + apply (bool_decide_unpack _). by vm_compute.
Defined.

(** ** Retrieval scopes *)

Lemma next_pk_fresh {A} `{Model A} (rows : list A) x :
  x ∈ rows → (pk x < next_pk rows)%Z.
Proof.
  unfold next_pk. induction rows as [|a rows IH]; [by inversion 1|].
  rewrite elem_of_cons. intros [->|Hx]; csimpl; [lia|].
  specialize (IH Hx). lia.
Qed.

Lemma elem_of_save_row {A} `{Model A} (x : A) (rows : list A) :
  x ∈ save_row x rows.
Proof.
  unfold save_row. case_decide as Hin.
  - apply list_elem_of_fmap in Hin as (y & Hy & Hin).
    apply list_elem_of_fmap. exists y. split; [|done]. by rewrite decide_True.
  - apply elem_of_app. right. by left.
Qed.

Lemma get_row_save_row {A} `{Model A} (x : A) (rows : list A) :
  get_row (pk x) (save_row x rows) = Some x.
Proof.
  unfold get_row.
  destruct (list_find (λ y, pk y = pk x) (save_row x rows)) as [[i y]|] eqn:Hf.
  - apply list_find_Some in Hf as (Hi & Hy & _). simpl. f_equal.
    apply list_elem_of_lookup_2 in Hi. unfold save_row in Hi.
    case_decide as Hin.
    + apply list_elem_of_fmap in Hi as (z & -> & _). by case_decide.
    + apply elem_of_app in Hi as [Hi|Hi].
      * destruct Hin. rewrite <-Hy. by apply list_elem_of_fmap_2.
      * by apply list_elem_of_singleton in Hi.
  - exfalso. rewrite list_find_None, Forall_forall in Hf.
    by apply (Hf x (elem_of_save_row x rows)).
Qed.

(** C6: the public scope holds exactly the stored Cookbooks with
    [checked] true and the unfiltered scope every stored Cookbook; a
    Cookbook created with [checked = False] is outside the public scope,
    and once [checked] is set and the instance saved it is inside. *)
Theorem public_scope (db : Store) :
  (∀ C, C ∈ public db ↔ C ∈ cookbook_rows db ∧ cookbook_checked C = true)
  ∧ (∀ C, C ∈ objects db ↔ C ∈ cookbook_rows db)
  ∧ (∀ name url_video url_cover_image description,
       let created :=
         cookbook_create name url_video url_cover_image description false db in
       let C := created.1 in
       let db1 := created.2 in
       C ∈ objects db1
       ∧ (∀ C', C' ∈ public db1 → cookbook_id C' ≠ cookbook_id C)
       ∧ set_checked true C ∈ public (cookbook_save (set_checked true C) db1)).
Proof.
  split; [|split; [done|]].
  - intros C. unfold public, objects. rewrite list_elem_of_filter. tauto.
  - intros name url_video url_cover_image description. simpl.
    unfold public, objects. simpl. split; [|split].
    + apply elem_of_app. right. by left.
    + intros C' HC' Heq. apply list_elem_of_filter in HC' as [Hck HC'].
      apply elem_of_app in HC' as [HC'|HC'].
      * apply next_pk_fresh in HC'.
        change (pk C') with (cookbook_id C') in HC'. simpl in Heq. lia.
      * apply list_elem_of_singleton in HC' as ->. done.
    + apply list_elem_of_filter. split; [done|]. apply elem_of_save_row.
Qed.

(** ** Deletion *)

(** C7: deleting a Cookbook removes each Step it owns, each
    MaterialStepRelationship row of those Steps, each
    TagCookbookRelationship row of the Cookbook and the Cookbook itself;
    the Material and CookbookTag tables are left as they were, so a
    Material linked to deleted Steps only is still stored.  Join rows of
    other Cookbooks stay. *)
Theorem cookbook_delete_cascade (C : Cookbook) (db : Store) :
  let db' := cookbook_delete C db in
  (∀ s, s ∈ step_rows db → step_cookbook_id s = cookbook_id C →
        ∀ s', s' ∈ step_rows db' → step_id s' ≠ step_id s)
  ∧ (∀ s r, s ∈ step_rows db → step_cookbook_id s = cookbook_id C →
            msr_step_id r = step_id s → r ∉ msr_rows db')
  ∧ (∀ r, tcr_cookbook_id r = cookbook_id C → r ∉ tcr_rows db')
  ∧ (∀ c, c ∈ cookbook_rows db' → cookbook_id c ≠ cookbook_id C)
  ∧ material_rows db' = material_rows db
  ∧ tag_rows db' = tag_rows db
  ∧ (∀ m, m ∈ material_rows db → m ∈ material_rows db')
  ∧ (∀ r, r ∈ tcr_rows db → tcr_cookbook_id r ≠ cookbook_id C →
          r ∈ tcr_rows db').
Proof.
  simpl. repeat split; try done.
  - intros s Hs Hown s' Hs' Heq.
    apply list_elem_of_filter in Hs' as [Hs' _]. apply Hs'.
    unfold pk, Step_Model. rewrite Heq.
    apply (list_elem_of_fmap_2 step_id). by apply list_elem_of_filter.
  - intros s r Hs Hown Hr Hin.
    apply list_elem_of_filter in Hin as [Hin _]. apply Hin.
    rewrite Hr. apply (list_elem_of_fmap_2 step_id). by apply list_elem_of_filter.
  - intros r Hr Hin. apply list_elem_of_filter in Hin as [Hin _].
    apply Hin. rewrite Hr. by left.
  - intros c Hc Heq. apply list_elem_of_filter in Hc as [Hc _].
    apply Hc. unfold pk, Cookbook_Model. rewrite Heq. by left.
  - intros r Hr Hne. apply list_elem_of_filter. split; [|done].
    by rewrite list_elem_of_singleton.
Qed.

Lemma cookbook_delete_cascade_witness :
  (∀ s', s' ∈ step_rows (cookbook_delete (Sample.cookbook 1 false) Sample.kitchen) →
         step_id s' ≠ 2%Z)
  ∧ Sample.material 3 "salt" 2
    ∈ material_rows (cookbook_delete (Sample.cookbook 1 false) Sample.kitchen).
Proof.
  destruct (cookbook_delete_cascade (Sample.cookbook 1 false) Sample.kitchen)
    as (Hsteps & _ & _ & _ & _ & _ & Hmat & _).
  split.
  - apply (Hsteps (Sample.step 2 1)); [|reflexivity].
    simpl. right. left.
  - apply Hmat. simpl. left.
Defined.

(** ** Tag association *)

Lemma exists_true {A} (qs : list A) : exists_ qs = true ↔ ∃ x, x ∈ qs.
Proof.
  destruct qs as [|x qs]; simpl; split.
  - done.
  - intros [x Hx]. by inversion Hx.
  - intros _. exists x. by left.
  - done.
Qed.

Lemma tcr_filter_joined C Tg db :
  exists_ (tcr_filter C Tg db) = true ↔
  ∃ r, r ∈ tcr_rows db
       ∧ tcr_cookbook_id r = cookbook_id C ∧ tcr_tag_id r = tag_id Tg.
Proof.
  rewrite exists_true. unfold tcr_filter.
  split; intros [r Hr]; exists r; rewrite list_elem_of_filter in *; tauto.
Qed.

Lemma add_tag_joined C Tg db :
  exists_ (tcr_filter C Tg db) = true → add_tag C Tg db = db.
Proof. unfold add_tag. by intros ->. Qed.

Lemma add_tag_fresh C Tg db :
  exists_ (tcr_filter C Tg db) = false →
  add_tag C Tg db
  = set_tcr_rows (tcr_rows db ++ [ {| tcr_id := next_pk (tcr_rows db);
                                      tcr_cookbook_id := cookbook_id C;
                                      tcr_tag_id := tag_id Tg;
                                      tcr_like := 0;
                                      tcr_unlike := 0 |} ]) db.
Proof. unfold add_tag. by intros ->. Qed.

Lemma tcr_filter_add_tag C Tg db :
  exists_ (tcr_filter C Tg db) = false →
  length (tcr_filter C Tg (add_tag C Tg db)) = 1.
Proof.
  intros Hno. rewrite (add_tag_fresh _ _ _ Hno).
  unfold tcr_filter in *. simpl. rewrite filter_app, length_app.
  destruct (filter _ (tcr_rows db)); [|done].
  by rewrite filter_cons_True.
Qed.

(** C3: [add_tag] leaves the store as it is when a join row of the pair
    exists; when none exists it appends one row for the pair, with a new
    key and [like = 0], [unlike = 0], and changes nothing else.  A
    second call therefore changes nothing, and after two calls from a
    store without a row for the pair exactly one row joins the pair. *)
Theorem add_tag_once (C : Cookbook) (Tg : CookbookTag) (db : Store) :
  let joined db :=
    ∃ r, r ∈ tcr_rows db
         ∧ tcr_cookbook_id r = cookbook_id C ∧ tcr_tag_id r = tag_id Tg in
  (joined db → add_tag C Tg db = db)
  ∧ (¬ joined db →
     ∃ r, add_tag C Tg db = set_tcr_rows (tcr_rows db ++ [r]) db
          ∧ tcr_cookbook_id r = cookbook_id C ∧ tcr_tag_id r = tag_id Tg
          ∧ tcr_like r = 0%Z ∧ tcr_unlike r = 0%Z
          ∧ ∀ r', r' ∈ tcr_rows db → tcr_id r' ≠ tcr_id r)
  ∧ add_tag C Tg (add_tag C Tg db) = add_tag C Tg db
  ∧ (¬ joined db →
     length (tcr_filter C Tg (add_tag C Tg (add_tag C Tg db))) = 1).
Proof.
  simpl. split; [|split; [|split]].
  - intros Hj. by apply add_tag_joined, tcr_filter_joined.
  - intros Hno. rewrite <-tcr_filter_joined, not_true_iff_false in Hno.
    rewrite (add_tag_fresh _ _ _ Hno). eexists. split; [done|].
    repeat split. simpl. intros r' Hr' Heq. apply next_pk_fresh in Hr'.
    change (pk r') with (tcr_id r') in Hr'. lia.
  - destruct (exists_ (tcr_filter C Tg db)) eqn:Hq.
    + by rewrite !(add_tag_joined _ _ _ Hq).
    + apply add_tag_joined. pose proof (tcr_filter_add_tag _ _ _ Hq) as Hlen.
      by destruct (tcr_filter C Tg (add_tag C Tg db)).
  - intros Hno. rewrite <-tcr_filter_joined, not_true_iff_false in Hno.
    pose proof (tcr_filter_add_tag _ _ _ Hno) as Hlen.
    rewrite (add_tag_joined C Tg (add_tag C Tg db)); [done|].
    by destruct (tcr_filter C Tg (add_tag C Tg db)).
Qed.

Lemma add_tag_once_witness :
  add_tag (Sample.cookbook 1 false) (Sample.tag 1 "quick" 0) Sample.kitchen
  = Sample.kitchen
  ∧ length (tcr_filter (Sample.cookbook 2 true) (Sample.tag 1 "quick" 0)
              (add_tag (Sample.cookbook 2 true) (Sample.tag 1 "quick" 0)
                 (add_tag (Sample.cookbook 2 true) (Sample.tag 1 "quick" 0)
                    Sample.kitchen))) = 1.
Proof.
  split.
  - destruct (add_tag_once (Sample.cookbook 1 false) (Sample.tag 1 "quick" 0)
                Sample.kitchen) as (Hnoop & _).
    apply Hnoop. exists (Sample.tagged 1 1 1). simpl. split; [left|done].
  - destruct (add_tag_once (Sample.cookbook 2 true) (Sample.tag 1 "quick" 0)
                Sample.kitchen) as (_ & _ & _ & Hone).
    apply Hone. simpl. intros (r & Hr & Hc & _).
    apply list_elem_of_singleton in Hr as ->. done.
Defined.

(** C8: [add_tag] writes the join table only: the CookbookTag table, and
    with it the [cookbook_sum] of the tag passed and of every other tag,
    is the same before and after, whether or not a row was added. *)
Theorem add_tag_keeps_cookbook_sum (C : Cookbook) (Tg : CookbookTag)
    (db : Store) :
  tag_rows (add_tag C Tg db) = tag_rows db
  ∧ (∀ k, tag_cookbook_sum <$> get_row k (tag_rows (add_tag C Tg db))
          = tag_cookbook_sum <$> get_row k (tag_rows db)).
Proof.
  assert (tag_rows (add_tag C Tg db) = tag_rows db) as Heq.
  { unfold add_tag. by destruct (exists_ _). }
  split; [done|]. intros k. by rewrite Heq.
Qed.

(** ** Counting the rows of a join *)

Lemma filter_all {A} (P : A → Prop) `{!∀ x, Decision (P x)} (l : list A) :
  (∀ x, x ∈ l → P x) → filter P l = l.
Proof.
  induction l as [|a l IH]; intros Hl; [done|].
  rewrite filter_cons_True by (apply Hl; left).
  f_equal. apply IH. intros x Hx. apply Hl. by right.
Qed.

Lemma filter_ext_elem {A} (P Q : A → Prop)
    `{!∀ x, Decision (P x), !∀ x, Decision (Q x)} (l : list A) :
  (∀ x, x ∈ l → P x ↔ Q x) → filter P l = filter Q l.
Proof.
  induction l as [|a l IH]; intros Hl; [done|].
  rewrite !filter_cons.
  rewrite IH by (intros x Hx; apply Hl; by right).
  assert (P a ↔ Q a) by (apply Hl; left).
  repeat case_decide; tauto.
Qed.

Lemma length_bind_const {A B} (x : B) (l : list A) :
  length (l ≫= λ _, [x]) = length l.
Proof. induction l; csimpl; auto. Qed.

Lemma length_bind_at_most_one {A B} (g : A → list B) (Q : A → Prop)
    `{!∀ a, Decision (Q a)} (l : list A) :
  (∀ a, a ∈ l → length (g a) = if decide (Q a) then 1 else 0) →
  length (l ≫= g) = length (filter Q l).
Proof.
  induction l as [|a l IH]; intros Hg; [done|].
  csimpl. rewrite length_app, filter_cons.
  rewrite IH by (intros b Hb; apply Hg; by right).
  rewrite (Hg a) by left. by case_decide.
Qed.

(** Looking a row up by its primary key finds at most one. *)
Lemma length_filter_pk {A} `{Model A} (k : Z) (R : A → Prop)
    `{!∀ a, Decision (R a)} (rows : list A) :
  pk_unique rows →
  length (filter (λ a, pk a = k ∧ R a) rows)
  = if decide (Exists (λ a, pk a = k ∧ R a) rows) then 1 else 0.
Proof.
  unfold pk_unique. induction rows as [|a rows IH]; intros Hu.
  - rewrite decide_False; [done|]. by inversion 1.
  - rewrite fmap_cons, NoDup_cons in Hu. destruct Hu as [Ha Hu].
    rewrite filter_cons. destruct (decide (pk a = k ∧ R a)) as [[Hk HR]|Hn].
    + rewrite decide_True by (by left).
      rewrite filter_none; [done|].
      intros b Hb [Hbk _]. apply Ha. rewrite Hk, <-Hbk.
      by apply list_elem_of_fmap_2.
    + rewrite (IH Hu). apply decide_ext.
      rewrite Exists_cons. tauto.
Qed.

Lemma occurrences_app {A} `{Model A} (k : Z) (l1 l2 : list A) :
  occurrences k (l1 ++ l2) = occurrences k l1 + occurrences k l2.
Proof. unfold occurrences. by rewrite filter_app, length_app. Qed.

Lemma occurrences_bind_other {A B} `{Model B} (k : Z) (h : A → list B)
    (l : list A) :
  (∀ a x, a ∈ l → x ∈ h a → pk x ≠ k) → occurrences k (l ≫= h) = 0.
Proof.
  intros Hl. unfold occurrences. rewrite filter_none; [done|].
  intros x Hx. apply list_elem_of_bind in Hx as (a & Hx & Ha). eauto.
Qed.

(** A join that starts from a table with a primary key shows each of its
    rows as often as the rest of the join matches it. *)
Lemma occurrences_bind_pk {A} `{Model A} (h : A → list A) (rows : list A) x :
  pk_unique rows → x ∈ rows →
  (∀ a y, y ∈ h a → y = a) →
  occurrences (pk x) (rows ≫= h) = length (h x).
Proof.
  intros Hu Hx Hh. induction rows as [|a rows IH]; [by inversion Hx|].
  pose proof Hu as Hu'. unfold pk_unique in Hu'.
  rewrite fmap_cons, NoDup_cons in Hu'. destruct Hu' as [Ha Hu'].
  csimpl. rewrite occurrences_app.
  destruct (decide (pk a = pk x)) as [Heq|Hne].
  - assert (a = x) as -> by (apply (pk_unique_inj (a :: rows)); [done|left|done..]).
    rewrite (occurrences_bind_other (pk x) h rows).
    + unfold occurrences. rewrite filter_all by (by intros y ->%Hh). lia.
    + intros b y Hb ->%Hh Hpk. apply Ha. rewrite <-Hpk.
      by apply list_elem_of_fmap_2.
  - unfold occurrences at 1. rewrite filter_none by (by intros y ->%Hh).
    apply elem_of_cons in Hx as [->|Hx]; [done|]. by apply IH.
Qed.

Lemma length_filter_split {B} (fk : B → Z) (Q : B → Prop)
    `{!∀ b, Decision (Q b)} (k : Z) (ks : list Z) (bs : list B) :
  k ∉ ks →
  length (filter (λ b, fk b ∈ k :: ks ∧ Q b) bs)
  = length (filter (λ b, fk b = k ∧ Q b) bs)
    + length (filter (λ b, fk b ∈ ks ∧ Q b) bs).
Proof.
  intros Hk. induction bs as [|b bs IH]; [done|].
  rewrite !filter_cons.
  repeat case_decide; simpl; try lia; exfalso;
    rewrite ?elem_of_cons in *; intuition congruence.
Qed.

(** INNER JOIN of a table with a primary key and the rows that refer to
    it: one result row for each referring row whose target is stored. *)
Lemma length_join_pk {A B C} `{Model A} (fk : B → Z) (Q : B → Prop)
    `{!∀ b, Decision (Q b)} (f : A → B → C) (rows : list A) (bs : list B) :
  pk_unique rows →
  length (a ← rows; f a <$> filter (λ b, fk b = pk a ∧ Q b) bs)
  = length (filter (λ b, fk b ∈ pk <$> rows ∧ Q b) bs).
Proof.
  unfold pk_unique. induction rows as [|a rows IH]; intros Hu.
  - csimpl. rewrite filter_none; [done|]. intros b _ [Hb _]. by inversion Hb.
  - rewrite fmap_cons, NoDup_cons in Hu. destruct Hu as [Ha Hu].
    csimpl. rewrite length_app, length_fmap, (IH Hu).
    by rewrite (length_filter_split fk Q (pk a)).
Qed.

Lemma remove_dups_NoDup {A} `{EqDecision A} (l : list A) :
  NoDup l → remove_dups l = l.
Proof.
  induction 1 as [|x l Hx Hl IH]; [done|].
  simpl. case_match; [done|by f_equal].
Qed.

(** ** The cached count of a tag *)

Lemma length_cookbook_set T db :
  pk_unique (cookbook_rows db) →
  length (cookbook_set T db)
  = length (filter (λ r, tcr_cookbook_id r ∈ pk <$> cookbook_rows db
                         ∧ tcr_tag_id r = tag_id T) (tcr_rows db)).
Proof.
  intros Hu. unfold cookbook_set.
  by rewrite <-(length_join_pk tcr_cookbook_id (λ r, tcr_tag_id r = tag_id T)
                  (λ c _, c) (cookbook_rows db) (tcr_rows db) Hu).
Qed.

Lemma length_cookbook_set_links T db :
  pk_unique (cookbook_rows db) → tcr_cookbook_fk db →
  length (cookbook_set T db) = length (tag_links T db).
Proof.
  intros Hu Hfk. rewrite length_cookbook_set by done. unfold tag_links.
  f_equal. apply filter_ext_elem. intros r Hr. specialize (Hfk r Hr). tauto.
Qed.

Lemma tag_links_distinct T db :
  tcr_pair_unique db → NoDup (tcr_cookbook_id <$> tag_links T db).
Proof.
  unfold tcr_pair_unique, tag_links. intros Hu.
  apply NoDup_fmap_2_strong.
  - intros x y Hx Hy Heq.
    apply list_elem_of_filter in Hx as [Hxt Hx], Hy as [Hyt Hy].
    apply (NoDup_fmap_inj_elem _ _ x y Hu Hx Hy). congruence.
  - apply NoDup_filter. by apply NoDup_fmap_1 in Hu.
Qed.

(** C2, as the code has it: after [update_cookbook_sum] the instance
    carries the number of rows of the join of Cookbook with the join
    table for this tag, which with keys and references intact is the number
    of join rows of the tag: a Cookbook joined by several rows is counted
    once for each.  When no (cookbook, tag) pair has more than one join
    row this is the number of distinct associated Cookbooks.  The instance
    is written to the tag table: reading the tag back by its key gives the
    new value; nothing else of the instance and no other table changes. *)
Theorem update_cookbook_sum_counts_rows (T : CookbookTag) (db : Store) :
  let T' := (update_cookbook_sum T db).1 in
  let db' := (update_cookbook_sum T db).2 in
  tag_cookbook_sum T' = count (cookbook_set T db)
  ∧ (pk_unique (cookbook_rows db) → tcr_cookbook_fk db →
     tag_cookbook_sum T' = Z.of_nat (length (tag_links T db)))
  ∧ (pk_unique (cookbook_rows db) → tcr_cookbook_fk db → tcr_pair_unique db →
     tag_cookbook_sum T' = distinct_cookbooks T db)
  ∧ get_row (tag_id T) (tag_rows db') = Some T'
  ∧ (tag_id T', tag_name T', tag_priority T')
    = (tag_id T, tag_name T, tag_priority T)
  ∧ db' = set_tag_rows (tag_rows db') db.
Proof.
  simpl. split; [done|]. split; [|split; [|split; [|done]]].
  - intros Hu Hfk. unfold count. by rewrite length_cookbook_set_links.
  - intros Hu Hfk Hpair. unfold count, distinct_cookbooks.
    rewrite length_cookbook_set_links by done.
    rewrite remove_dups_NoDup by (by apply tag_links_distinct).
    by rewrite length_fmap.
  - exact (get_row_save_row (set_cookbook_sum (count (cookbook_set T db)) T)
             (tag_rows db)).
Qed.

Lemma update_cookbook_sum_counts_rows_witness :
  tag_cookbook_sum (update_cookbook_sum (Sample.tag 2 "spicy" 7) Sample.kitchen).1
  = distinct_cookbooks (Sample.tag 2 "spicy" 7) Sample.kitchen
  ∧ tag_cookbook_sum (update_cookbook_sum (Sample.tag 1 "quick" 0) Sample.doubled).1
    = Z.of_nat (length (tag_links (Sample.tag 1 "quick" 0) Sample.doubled)).
Proof.
  assert (pk_unique (cookbook_rows Sample.kitchen)) as Hu
    by (apply (bool_decide_unpack _); by vm_compute).
  split.
  - destruct (update_cookbook_sum_counts_rows (Sample.tag 2 "spicy" 7)
                Sample.kitchen) as (_ & _ & Hdistinct & _).
    apply Hdistinct; [done| |].
    + intros r Hr. apply list_elem_of_singleton in Hr as ->.
      apply (bool_decide_unpack _). by vm_compute.
    + apply (bool_decide_unpack _). by vm_compute.
  - destruct (update_cookbook_sum_counts_rows (Sample.tag 1 "quick" 0)
                Sample.doubled) as (_ & Hrows & _).
    apply Hrows; [done|].
    intros r Hr. simpl in Hr.
    repeat (apply elem_of_cons in Hr as [->|Hr]);
      [apply (bool_decide_unpack _); by vm_compute..|by inversion Hr].
Defined.

(** C2 as stated fails: with two join rows for the same (cookbook, tag)
    pair the tag has one associated Cookbook and [update_cookbook_sum]
    stores 2. *)
Lemma update_cookbook_sum_counts_duplicates :
  tag_cookbook_sum (update_cookbook_sum (Sample.tag 1 "quick" 0) Sample.doubled).1
  = 2%Z
  ∧ distinct_cookbooks (Sample.tag 1 "quick" 0) Sample.doubled = 1%Z
  ∧ tag_cookbook_sum (update_cookbook_sum (Sample.tag 1 "quick" 0) Sample.doubled).1
    ≠ distinct_cookbooks (Sample.tag 1 "quick" 0) Sample.doubled.
Proof. by vm_compute. Qed.

(** ** The Materials of a Cookbook *)

Lemma elem_of_materials C db M :
  M ∈ materials C db ↔
  M ∈ material_rows db
  ∧ ∃ s r, s ∈ step_rows db ∧ step_cookbook_id s = cookbook_id C
           ∧ r ∈ msr_rows db ∧ msr_step_id r = step_id s
           ∧ msr_material_id r = material_id M.
Proof.
  unfold materials. rewrite list_elem_of_bind. split.
  - intros (m & Hin & Hm).
    apply list_elem_of_bind in Hin as (r & Hin & Hr).
    apply list_elem_of_bind in Hin as (s & Hin & Hs).
    apply list_elem_of_singleton in Hin as ->.
    apply list_elem_of_filter in Hr as [Hrm Hr], Hs as [[Hsr Hsc] Hs].
    split; [done|]. exists s, r. eauto.
  - intros (HM & s & r & Hs & Hsc & Hr & Hrs & Hrm).
    exists M. split; [|done].
    apply list_elem_of_bind. exists r. split; [|by apply list_elem_of_filter].
    apply list_elem_of_bind. exists s. split; [by left|].
    by apply list_elem_of_filter.
Qed.

Lemma occurrences_materials C db M :
  pk_unique (material_rows db) → pk_unique (step_rows db) →
  M ∈ material_rows db →
  occurrences (pk M) (materials C db) = length (links C M db).
Proof.
  intros Hm Hs HM. unfold materials.
  rewrite (occurrences_bind_pk _ (material_rows db) M Hm HM).
  - rewrite (length_bind_at_most_one _
               (λ r, Exists (λ s, pk s = msr_step_id r
                                  ∧ step_cookbook_id s = cookbook_id C)
                            (step_rows db))).
    + unfold links. rewrite list_filter_filter.
      f_equal. apply list_filter_iff. intros r.
      change (@pk Step _) with step_id. tauto.
    + intros r _. rewrite length_bind_const.
      by apply (length_filter_pk (msr_step_id r)
                  (λ s, step_cookbook_id s = cookbook_id C)).
  - intros m y Hy.
    apply list_elem_of_bind in Hy as (r & Hy & _).
    apply list_elem_of_bind in Hy as (s & Hy & _).
    by apply list_elem_of_singleton in Hy.
Qed.

(** C1, as the code has it: a Material is in [materials] of a Cookbook
    exactly when some Step owned by the Cookbook links it through a
    MaterialStepRelationship row, and it is listed once for each join row
    that links it to a Step of the Cookbook: once when there is one such
    row, more often when several Steps, or several join rows, refer to
    it. *)
Theorem materials_per_link (C : Cookbook) (db : Store) :
  (∀ M, M ∈ materials C db ↔
        M ∈ material_rows db
        ∧ ∃ s r, s ∈ step_rows db ∧ step_cookbook_id s = cookbook_id C
                 ∧ r ∈ msr_rows db ∧ msr_step_id r = step_id s
                 ∧ msr_material_id r = material_id M)
  ∧ (pk_unique (material_rows db) → pk_unique (step_rows db) →
     ∀ M, M ∈ material_rows db →
          occurrences (material_id M) (materials C db) = length (links C M db)).
Proof.
  split.
  - intros M. apply elem_of_materials.
  - intros Hm Hs M HM. by apply occurrences_materials.
Qed.

Lemma materials_per_link_witness :
  occurrences 1 (materials (Sample.cookbook 1 false) Sample.kitchen)
  = length (links (Sample.cookbook 1 false) (Sample.material 1 "egg" 1)
              Sample.kitchen)
  ∧ length (links (Sample.cookbook 1 false) (Sample.material 1 "egg" 1)
              Sample.kitchen) = 1.
Proof.
  split; [|by vm_compute].
  destruct (materials_per_link (Sample.cookbook 1 false) Sample.kitchen)
    as [_ Hcount].
  apply (Hcount ltac:(apply (bool_decide_unpack _); by vm_compute)
                ltac:(apply (bool_decide_unpack _); by vm_compute)
                (Sample.material 1 "egg" 1)).
  simpl. right. left.
Defined.

(** C1 as stated fails: salt is linked to the two Steps of Cookbook 1,
    by three join rows, and [materials] lists it three times. *)
Lemma materials_lists_per_link :
  Sample.material 3 "salt" 2 ∈ materials (Sample.cookbook 1 false) Sample.kitchen
  ∧ occurrences 3 (materials (Sample.cookbook 1 false) Sample.kitchen) = 3
  ∧ occurrences 3 (materials (Sample.cookbook 1 false) Sample.kitchen) ≠ 1.
Proof. split; [vm_compute; left|by vm_compute]. Qed.

(** * Further properties *)

(** ** What a Step lists *)

(** X1: a Material is in [get_material_set] of a Step exactly when it is
    stored and a MaterialStepRelationship row links it to the Step. *)
Theorem get_material_set_member (self : Step) (db : Store) (M : Material) :
  M ∈ get_material_set self db ↔
  M ∈ material_rows db
  ∧ ∃ r, r ∈ msr_rows db
         ∧ msr_material_id r = material_id M ∧ msr_step_id r = step_id self.
Proof. apply elem_of_get_material_set. Qed.

Lemma length_material_set self db :
  pk_unique (material_rows db) →
  length (material_set self db)
  = length (filter (λ r, msr_material_id r ∈ pk <$> material_rows db
                         ∧ msr_step_id r = step_id self) (msr_rows db)).
Proof.
  intros Hu. unfold material_set.
  by rewrite <-(length_join_pk msr_material_id
                  (λ r, msr_step_id r = step_id self) (λ m r, (r, m))
                  (material_rows db) (msr_rows db) Hu).
Qed.

(** X2: with the key of Material and the reference of the join rows to it
    intact, [get_material_set] has one entry for each join row of the
    Step: a Material linked by two rows is listed twice. *)
Theorem get_material_set_length (self : Step) (db : Store) :
  pk_unique (material_rows db) →
  (∀ r, r ∈ msr_rows db → msr_material_id r ∈ pk <$> material_rows db) →
  length (get_material_set self db)
  = length (filter (λ r, msr_step_id r = step_id self) (msr_rows db)).
Proof.
  intros Hu Hfk. unfold get_material_set.
  rewrite length_fmap, get_material_set_rows_perm, length_material_set by done.
  f_equal. apply filter_ext_elem. intros r Hr. specialize (Hfk r Hr). tauto.
Qed.

Lemma get_material_set_length_witness :
  length (get_material_set (Sample.step 1 1) Sample.kitchen) = 4.
Proof.
  rewrite (get_material_set_length (Sample.step 1 1) Sample.kitchen).
  - reflexivity.
  - apply (bool_decide_unpack _). by vm_compute.
  - intros r Hr. simpl in Hr.
    repeat (apply elem_of_cons in Hr as [->|Hr]);
      [apply (bool_decide_unpack _); by vm_compute..|by inversion Hr].
Defined.

Lemma filter_three_ways {A} (f : A → Z) (a b c : Z) (l : list A) :
  a ≠ b → a ≠ c → b ≠ c →
  (∀ x, x ∈ l → f x ∈ [a; b; c]) →
  filter (λ x, f x = a) l ++ filter (λ x, f x = b) l ++ filter (λ x, f x = c) l
  ≡ₚ l.
Proof.
  intros Hab Hac Hbc. induction l as [|x l IH]; intros Hl; [done|].
  assert (filter (λ x, f x = a) l ++ filter (λ x, f x = b) l
          ++ filter (λ x, f x = c) l ≡ₚ l) as IH'
    by (apply IH; intros y Hy; apply Hl; by right).
  assert (f x ∈ [a; b; c]) as Hx by (apply Hl; left).
  rewrite !filter_cons.
  apply elem_of_cons in Hx as [Hx|Hx]; [|apply elem_of_cons in Hx as [Hx|Hx]].
  - rewrite decide_True, (decide_False (P := f x = b)),
      (decide_False (P := f x = c)) by congruence.
    simpl. by rewrite IH'.
  - rewrite (decide_False (P := f x = a)), (decide_True (P := f x = b)),
      (decide_False (P := f x = c)) by congruence.
    simpl. by rewrite <-Permutation_middle, IH'.
  - apply list_elem_of_singleton in Hx.
    rewrite (decide_False (P := f x = a)), (decide_False (P := f x = b)),
      (decide_True (P := f x = c)) by congruence.
    by rewrite app_assoc, <-Permutation_middle, <-app_assoc, IH'.
Qed.

(** X3: when the three members of MaterialType have different values and
    every Material of the Step has one of them as its type, the views
    [materials_food], [materials_condiment] and [materials_tool] split
    [get_material_set]: together they hold each of its entries once. *)
Theorem material_views_partition (T : MaterialType) (self : Step) (db : Store) :
  FOOD T ≠ CONDIMENT T → FOOD T ≠ TOOL T → CONDIMENT T ≠ TOOL T →
  (∀ m, m ∈ get_material_set self db →
        material_type m ∈ [FOOD T; CONDIMENT T; TOOL T]) →
  materials_food T self db ++ materials_condiment T self db
    ++ materials_tool T self db
  ≡ₚ get_material_set self db.
Proof.
  intros. unfold materials_food, materials_condiment, materials_tool,
    get_material_set_by_type.
  by apply (filter_three_ways material_type).
Qed.

Lemma material_views_partition_witness :
  materials_food Sample.types (Sample.step 1 1) Sample.kitchen
    ++ materials_condiment Sample.types (Sample.step 1 1) Sample.kitchen
    ++ materials_tool Sample.types (Sample.step 1 1) Sample.kitchen
  ≡ₚ get_material_set (Sample.step 1 1) Sample.kitchen.
Proof.
  apply (material_views_partition Sample.types (Sample.step 1 1) Sample.kitchen);
    [done..|].
  intros m Hm. vm_compute in Hm.
  repeat (apply elem_of_cons in Hm as [->|Hm]);
    [apply (bool_decide_unpack _); by vm_compute..|by inversion Hm].
Defined.

Lemma material_set_nil self db :
  (∀ r, r ∈ msr_rows db → msr_step_id r ≠ step_id self) →
  material_set self db = [].
Proof.
  intros Hno. unfold material_set.
  induction (material_rows db) as [|m ms IH]; [done|].
  csimpl. rewrite IH, filter_none; [done|].
  intros r Hr [_ Hs]. by apply (Hno r).
Qed.

(** X4: [admin_material_set_list] is the names of [get_material_set], in
    its order, joined by the line break tag; for a Step without join rows
    it is the empty text.  The length test of the source changes nothing:
    joining no names gives the empty text too. *)
Theorem admin_material_set_list_joined (self : Step) (db : Store) :
  admin_material_set_list self db
  = String.concat "<br>" (material_name <$> get_material_set self db)
  ∧ ((∀ r, r ∈ msr_rows db → msr_step_id r ≠ step_id self) →
     admin_material_set_list self db = "").
Proof.
  assert (admin_material_set_list self db
          = String.concat "<br>" (material_name <$> get_material_set self db))
    as Heq.
  { unfold admin_material_set_list.
    destruct (get_material_set self db) as [|m l]; done. }
  split; [done|]. intros Hno. rewrite Heq.
  unfold get_material_set, get_material_set_rows.
  by rewrite material_set_nil.
Qed.

Lemma admin_material_set_list_joined_witness :
  admin_material_set_list (Sample.step 4 2) Sample.kitchen = "".
Proof.
  apply (admin_material_set_list_joined (Sample.step 4 2) Sample.kitchen).
  intros r Hr. simpl in Hr.
  repeat (apply elem_of_cons in Hr as [->|Hr]); [done..|by inversion Hr].
Defined.

(** ** Deleting *)

Lemma filter_filter_absorb {A} (P Q : A → Prop)
    `{!∀ x, Decision (P x), !∀ x, Decision (Q x)} (l : list A) :
  (∀ x, x ∈ l → P x → Q x) → filter P (filter Q l) = filter P l.
Proof.
  intros HPQ. rewrite list_filter_filter. apply filter_ext_elem.
  intros x Hx. specialize (HPQ x Hx). tauto.
Qed.

Lemma bind_ext_elem {A B} (f g : A → list B) (l : list A) :
  (∀ x, x ∈ l → f x = g x) → l ≫= f = l ≫= g.
Proof.
  induction l as [|a l IH]; intros Hfg; [done|].
  csimpl. rewrite (Hfg a) by left. f_equal. apply IH.
  intros x Hx. apply Hfg. by right.
Qed.


Lemma bind_filter_absorb {A B} (P : A → Prop) `{!∀ x, Decision (P x)}
    (g : A → list B) (l : list A) :
  (∀ x, x ∈ l → ¬ P x → g x = []) → filter P l ≫= g = l ≫= g.
Proof.
  induction l as [|a l IH]; intros Hg; [done|].
  rewrite filter_cons. csimpl.
  rewrite <-IH by (intros x Hx; apply Hg; by right).
  case_decide as Ha; [done|]. by rewrite (Hg a) by (done || left).
Qed.

Lemma pk_unique_filter {A} `{Model A} (P : A → Prop)
    `{!∀ x, Decision (P x)} (rows : list A) :
  pk_unique rows → pk_unique (filter P rows).
Proof.
  unfold pk_unique. intros Hu. apply (sublist_NoDup _ _ Hu).
  apply fmap_sublist, sublist_filter.
Qed.

Lemma elem_of_pk_delete_rows {A} `{Model A} (k : Z) (ks : list Z)
    (rows : list A) :
  k ∈ pk <$> rows → k ∉ ks → k ∈ pk <$> delete_rows ks rows.
Proof.
  intros (x & -> & Hx)%list_elem_of_fmap Hk.
  apply list_elem_of_fmap. exists x. split; [done|].
  by apply list_elem_of_filter.
Qed.




(** X6: deleting a Material removes it and the join rows that refer to
    it: afterwards no Step lists a Material with its key and no Cookbook
    has one among its [materials]; Steps, Cookbooks, tags and tag join
    rows stay as they were. *)
Theorem material_delete_cascade (M : Material) (db : Store) :
  let db' := material_delete M db in
  (∀ m, m ∈ material_rows db' → material_id m ≠ material_id M)
  ∧ (∀ r, r ∈ msr_rows db' → msr_material_id r ≠ material_id M)
  ∧ (∀ S m, m ∈ get_material_set S db' → material_id m ≠ material_id M)
  ∧ (∀ C m, m ∈ materials C db' → material_id m ≠ material_id M)
  ∧ (step_rows db', cookbook_rows db', tag_rows db', tcr_rows db')
    = (step_rows db, cookbook_rows db, tag_rows db, tcr_rows db)
  ∧ (∀ m, m ∈ material_rows db → material_id m ≠ material_id M →
          m ∈ material_rows db').
Proof.
  simpl.
  assert (∀ m, m ∈ material_rows (material_delete M db) →
               material_id m ≠ material_id M) as Hgone.
  { intros m Hm Heq. apply list_elem_of_filter in Hm as [Hm _].
    apply Hm. change (pk m) with (material_id m). rewrite Heq. by left. }
  split; [done|]. split; [|split; [|split; [|split; [done|]]]].
  - intros r Hr Heq. apply list_elem_of_filter in Hr as [Hr _].
    apply Hr. rewrite Heq. by left.
  - intros S m Hm. apply elem_of_get_material_set in Hm as [Hm _]. auto.
  - intros C m Hm. apply elem_of_materials in Hm as [Hm _]. auto.
  - intros m Hm Hne. apply list_elem_of_filter. split; [|done].
    by rewrite list_elem_of_singleton.
Qed.

Lemma material_delete_cascade_witness :
  Sample.material 1 "egg" 1
  ∈ material_rows (material_delete (Sample.material 3 "salt" 2) Sample.kitchen).
Proof.
  destruct (material_delete_cascade (Sample.material 3 "salt" 2) Sample.kitchen)
    as (_ & _ & _ & _ & _ & Hstay).
  apply Hstay; [|done]. simpl. right. left.
Defined.


Lemma owned_step_key C (steps : list Step) s :
  pk_unique steps → s ∈ steps →
  pk s ∈ pk <$> filter (λ s, step_cookbook_id s = cookbook_id C) steps →
  step_cookbook_id s = cookbook_id C.
Proof.
  intros Hu Hs (s0 & Hpk & Hs0)%list_elem_of_fmap.
  apply list_elem_of_filter in Hs0 as [Hown Hs0].
  by rewrite (pk_unique_inj steps s s0 Hu Hs Hs0 Hpk).
Qed.


(** X8: with the key of Step intact, deleting a Cookbook leaves the
    [materials] of every other Cookbook as they were. *)
Theorem cookbook_delete_other_materials (C C' : Cookbook) (db : Store) :
  pk_unique (step_rows db) →
  cookbook_id C' ≠ cookbook_id C →
  materials C' (cookbook_delete C db) = materials C' db.
Proof.
  intros Hu Hne. unfold materials. simpl. apply bind_ext_elem. intros m _.
  set (ids := pk <$> filter (λ s, step_cookbook_id s = cookbook_id C)
                             (step_rows db)).
  set (g := λ r : MaterialStepRelationship,
         filter (λ s, step_id s = msr_step_id r
                      ∧ step_cookbook_id s = cookbook_id C') (step_rows db)
         ≫= (λ _ : Step, [m])).
  trans (filter (λ r, msr_material_id r = material_id m)
           (filter (λ r, msr_step_id r ∉ ids) (msr_rows db)) ≫= g).
  { apply bind_ext_elem. intros r _. unfold g, delete_rows. f_equal.
    apply filter_filter_absorb. intros s Hs [_ Hown] Hin.
    apply Hne. rewrite <-Hown. by apply (owned_step_key C (step_rows db)). }
  rewrite list_filter_filter.
  rewrite (list_filter_iff _ (λ r, (msr_step_id r ∉ ids)
                                    ∧ msr_material_id r = material_id m))
    by (intros r; tauto).
  rewrite <-list_filter_filter. apply bind_filter_absorb.
  intros r _ Hin%dec_stable. unfold g. rewrite filter_none; [done|].
  intros s Hs [Hid Hown]. apply Hne. rewrite <-Hown.
  apply (owned_step_key C (step_rows db)); [done..|].
  change (pk s) with (step_id s). by rewrite Hid.
Qed.

Lemma cookbook_delete_other_materials_witness :
  materials (Sample.cookbook 2 true)
    (cookbook_delete (Sample.cookbook 1 false) Sample.kitchen)
  = materials (Sample.cookbook 2 true) Sample.kitchen.
Proof.
  apply cookbook_delete_other_materials; [|done].
  apply (bool_decide_unpack _). by vm_compute.
Defined.

(** ** Integrity *)

Ltac kept_by_filter :=
  repeat match goal with
    | H : _ ∈ filter _ _ |- _ => apply list_elem_of_filter in H as [? ?]
    | H : _ ∈ delete_rows _ _ |- _ => apply list_elem_of_filter in H as [? ?]
    end.

(** X9: each of the four deletions keeps the primary keys unique and
    leaves no row that refers to a deleted one: the cascades remove
    exactly what would otherwise dangle. *)
Theorem deletes_keep_integrity (db : Store) (C : Cookbook) (S : Step)
    (M : Material) (T : CookbookTag) :
  (keys_unique db →
   keys_unique (cookbook_delete C db) ∧ keys_unique (step_delete S db)
   ∧ keys_unique (material_delete M db) ∧ keys_unique (tag_delete T db))
  ∧ (references_kept db →
     references_kept (cookbook_delete C db) ∧ references_kept (step_delete S db)
     ∧ references_kept (material_delete M db)
     ∧ references_kept (tag_delete T db)).
Proof.
  split.
  - intros (? & ? & ? & ? & ? & ?).
    repeat split; simpl; try done; by apply pk_unique_filter.
  - intros (Hsc & Hrc & Hrt & Hrs & Hrm).
    split; [|split; [|split]]; repeat split; simpl; intros x Hx;
      kept_by_filter; eauto using elem_of_pk_delete_rows.
    + apply elem_of_pk_delete_rows; [auto|].
      rewrite list_elem_of_singleton. intros Hown.
      match goal with H : pk x ∉ _ |- _ => apply H end.
      apply list_elem_of_fmap_2. by apply list_elem_of_filter.
Qed.

Ltac stored_rows H :=
  simpl in H;
  repeat (apply elem_of_cons in H as [->|H]);
  [apply (bool_decide_unpack _); by vm_compute..|by inversion H].

Lemma kitchen_keys : keys_unique Sample.kitchen.
Proof. repeat split; apply (bool_decide_unpack _); by vm_compute. Qed.

Lemma kitchen_references : references_kept Sample.kitchen.
Proof. repeat split; intros x Hx; stored_rows Hx. Qed.

Lemma deletes_keep_integrity_witness :
  keys_unique (cookbook_delete (Sample.cookbook 1 false) Sample.kitchen)
  ∧ references_kept (cookbook_delete (Sample.cookbook 1 false) Sample.kitchen).
Proof.
  destruct (deletes_keep_integrity Sample.kitchen (Sample.cookbook 1 false)
              (Sample.step 1 1) (Sample.material 1 "egg" 1)
              (Sample.tag 1 "quick" 0)) as [Hkeys Hrefs].
  split.
  - apply Hkeys, kitchen_keys.
  - apply Hrefs, kitchen_references.
Defined.

(** ** Saving and reading back *)

Lemma get_row_cons {A} `{Model A} (k : Z) (y : A) (rows : list A) :
  get_row k (y :: rows) = if decide (pk y = k) then Some y else get_row k rows.
Proof.
  unfold get_row. simpl. case_decide; [done|].
  by destruct (list_find _ rows) as [[i z]|].
Qed.

Lemma get_row_Some {A} `{Model A} (k : Z) (rows : list A) x :
  get_row k rows = Some x → x ∈ rows ∧ pk x = k.
Proof.
  induction rows as [|y rows IH]; [done|].
  rewrite get_row_cons. case_decide.
  - intros ?; simplify_eq. split; [left|done].
  - intros [Hx Hk]%IH. split; [by right|done].
Qed.

Lemma get_row_is_Some {A} `{Model A} (k : Z) (rows : list A) :
  is_Some (get_row k rows) ↔ k ∈ pk <$> rows.
Proof.
  induction rows as [|y rows IH].
  - split; [by intros [? ?]|by inversion 1].
  - rewrite get_row_cons, fmap_cons, elem_of_cons. case_decide.
    + split; [by left|by eexists].
    + rewrite IH. split; [by right|]. intros [?|?]; [congruence|done].
Qed.

Lemma get_row_save_row_ne {A} `{Model A} (k : Z) (x : A) (rows : list A) :
  k ≠ pk x → get_row k (save_row x rows) = get_row k rows.
Proof.
  intros Hne. unfold save_row. case_decide as Hin; clear Hin.
  - induction rows as [|y rows IH]; [done|].
    rewrite fmap_cons, !get_row_cons, IH.
    destruct (decide (pk y = pk x)) as [Heq|?]; [|done].
    rewrite !decide_False by congruence. done.
  - induction rows as [|y rows IH].
    + simpl. rewrite get_row_cons. by rewrite decide_False.
    + simpl. by rewrite !get_row_cons, IH.
Qed.

Lemma elem_of_save_row_iff {A} `{Model A} (x y : A) (rows : list A) :
  y ∈ save_row x rows ↔ y = x ∨ (y ∈ rows ∧ pk y ≠ pk x).
Proof.
  unfold save_row. case_decide as Hin.
  - rewrite list_elem_of_fmap. split.
    + intros (z & -> & Hz). case_decide; [by left|by right].
    + intros [->|[Hy Hne]].
      * apply list_elem_of_fmap in Hin as (z & Hpk & Hz).
        exists z. by rewrite decide_True.
      * exists y. by rewrite decide_False.
  - rewrite elem_of_app, list_elem_of_singleton. split.
    + intros [Hy | ->]; [right|by left]. split; [done|].
      intros Heq. apply Hin. rewrite <-Heq. by apply list_elem_of_fmap_2.
    + intros [->|[Hy _]]; [by right|by left].
Qed.

Lemma pk_save_row {A} `{Model A} (x : A) (rows : list A) :
  pk <$> save_row x rows
  = if decide (pk x ∈ pk <$> rows) then pk <$> rows else (pk <$> rows) ++ [pk x].
Proof.
  unfold save_row. case_decide.
  - rewrite <-list_fmap_compose. apply list_fmap_ext. intros i y _. simpl.
    by case_decide.
  - by rewrite fmap_app.
Qed.

Lemma save_row_twice {A} `{Model A} (x : A) (rows : list A) :
  save_row x (save_row x rows) = save_row x rows.
Proof.
  assert (pk x ∈ pk <$> save_row x rows) as Hin
    by (apply list_elem_of_fmap_2, elem_of_save_row).
  unfold save_row at 1. rewrite decide_True by done.
  rewrite <-(list_fmap_id (save_row x rows)) at 2.
  apply list_fmap_ext. intros i y Hy%list_elem_of_lookup_2. simpl.
  case_decide as Hpk; [|done].
  apply elem_of_save_row_iff in Hy as [->|[_ ?]]; done.
Qed.

Lemma pk_unique_save_row {A} `{Model A} (x : A) (rows : list A) :
  pk_unique rows → pk_unique (save_row x rows).
Proof.
  unfold pk_unique. rewrite pk_save_row. case_decide; [done|].
  intros Hu. apply NoDup_app. split; [done|]. split; [|apply NoDup_singleton].
  intros k Hk ->%list_elem_of_singleton. done.
Qed.

(** ** Visibility after a save *)

(** X10: saving a Cookbook with [checked] false leaves no record with its
    key in the public scope; saving it with [checked] true puts it
    there; the membership of every Cookbook with another key is as
    before; and the public scope is the unfiltered scope with records
    left out, in the same order. *)
Theorem cookbook_save_scope (C : Cookbook) (db : Store) :
  let db' := cookbook_save C db in
  (cookbook_checked C = false →
   ∀ c, c ∈ public db' → cookbook_id c ≠ cookbook_id C)
  ∧ (cookbook_checked C = true → C ∈ public db')
  ∧ (∀ c, cookbook_id c ≠ cookbook_id C → c ∈ public db' ↔ c ∈ public db)
  ∧ public db' `sublist_of` objects db'.
Proof.
  simpl. unfold public, objects. simpl. split; [|split; [|split]].
  - intros Hoff c [Hon Hc]%list_elem_of_filter Heq.
    apply elem_of_save_row_iff in Hc as [->|[_ Hne]]; [congruence|done].
  - intros Hon. apply list_elem_of_filter. split; [done|apply elem_of_save_row].
  - intros c Hne. rewrite !list_elem_of_filter, elem_of_save_row_iff.
    split; [intros [? [->|[? ?]]]; done|]. intros [? ?]. split; [done|].
    right. done.
  - apply sublist_filter.
Qed.

Lemma cookbook_save_scope_witness :
  (∀ c, c ∈ public (cookbook_save (Sample.cookbook 2 false) Sample.kitchen) →
        cookbook_id c ≠ 2%Z)
  ∧ Sample.cookbook 1 true
    ∈ public (cookbook_save (Sample.cookbook 1 true) Sample.kitchen).
Proof.
  split.
  - by apply (cookbook_save_scope (Sample.cookbook 2 false) Sample.kitchen).
  - destruct (cookbook_save_scope (Sample.cookbook 1 true) Sample.kitchen)
      as (_ & Hon & _).
    by apply Hon.
Defined.

(** ** Recomputing the count again *)

(** X11: [update_cookbook_sum] changes the row of its tag only, and a
    second call on the instance it returns changes nothing: every row of
    the tag table with the tag's key is the returned instance, a read of
    any other key gives what it gave before, and calling it again returns
    the same instance and the same store. *)
Theorem update_cookbook_sum_again (T : CookbookTag) (db : Store) :
  let T' := (update_cookbook_sum T db).1 in
  let db' := (update_cookbook_sum T db).2 in
  update_cookbook_sum T' db' = (T', db')
  ∧ (∀ y, y ∈ tag_rows db' → tag_id y = tag_id T → y = T')
  ∧ (∀ k, k ≠ tag_id T →
          get_row k (tag_rows db') = get_row k (tag_rows db)).
Proof.
  simpl. split; [|split].
  - unfold update_cookbook_sum. simpl.
    change (cookbook_set (set_cookbook_sum (count (cookbook_set T db)) T)
              (set_tag_rows
                 (save_row (set_cookbook_sum (count (cookbook_set T db)) T)
                    (tag_rows db)) db))
      with (cookbook_set T db).
    unfold set_tag_rows. simpl. by rewrite save_row_twice.
  - intros y Hy Hid. apply elem_of_save_row_iff in Hy as [->|[_ Hne]]; done.
  - intros k Hne. by apply get_row_save_row_ne.
Qed.

Lemma update_cookbook_sum_again_witness :
  get_row 2 (tag_rows (update_cookbook_sum (Sample.tag 1 "quick" 0)
                         Sample.kitchen).2)
  = Some (Sample.tag 2 "spicy" 7).
Proof.
  destruct (update_cookbook_sum_again (Sample.tag 1 "quick" 0) Sample.kitchen)
    as (_ & _ & Hframe).
  by rewrite Hframe.
Defined.

(** ** The two sides of the tag relation *)

Lemma elem_of_cookbook_set T db c :
  c ∈ cookbook_set T db ↔
  c ∈ cookbook_rows db
  ∧ ∃ r, r ∈ tcr_rows db
         ∧ tcr_cookbook_id r = cookbook_id c ∧ tcr_tag_id r = tag_id T.
Proof.
  unfold cookbook_set. rewrite list_elem_of_bind. split.
  - intros (c' & (r & -> & Hr)%list_elem_of_fmap & Hc).
    rewrite list_elem_of_filter in Hr. destruct Hr as [[? ?] ?]. eauto.
  - intros (Hc & r & Hr & ? & ?). exists c. split; [|done].
    apply list_elem_of_fmap. exists r. split; [done|].
    by apply list_elem_of_filter.
Qed.

Lemma elem_of_tag_set C db t :
  t ∈ tag_set C db ↔
  t ∈ tag_rows db
  ∧ ∃ r, r ∈ tcr_rows db
         ∧ tcr_cookbook_id r = cookbook_id C ∧ tcr_tag_id r = tag_id t.
Proof.
  unfold tag_set. rewrite list_elem_of_bind. split.
  - intros (t' & (r & -> & Hr)%list_elem_of_fmap & Ht).
    rewrite list_elem_of_filter in Hr. destruct Hr as [[? ?] ?]. eauto.
  - intros (Ht & r & Hr & ? & ?). exists t. split; [|done].
    apply list_elem_of_fmap. exists r. split; [done|].
    by apply list_elem_of_filter.
Qed.

Lemma add_tag_writes_joins C Tg db :
  add_tag C Tg db = set_tcr_rows (tcr_rows (add_tag C Tg db)) db.
Proof. unfold add_tag. destruct (exists_ _); [by destruct db|done]. Qed.

Lemma add_tag_joins C Tg db :
  ∃ r, r ∈ tcr_rows (add_tag C Tg db)
       ∧ tcr_cookbook_id r = cookbook_id C ∧ tcr_tag_id r = tag_id Tg.
Proof.
  destruct (exists_ (tcr_filter C Tg db)) eqn:Hq.
  - rewrite add_tag_joined by done. by apply tcr_filter_joined.
  - rewrite add_tag_fresh by done. eexists. split.
    + simpl. apply elem_of_app. right. by left.
    + done.
Qed.

(** X12: for a stored Cookbook and a stored tag, [cookbook.tag_set] holds
    the tag exactly when [tag.cookbook_set] holds the Cookbook, and after
    [add_tag] both do. *)
Theorem tag_relation_two_sided (C : Cookbook) (Tg : CookbookTag) (db : Store) :
  C ∈ cookbook_rows db → Tg ∈ tag_rows db →
  (Tg ∈ tag_set C db ↔ C ∈ cookbook_set Tg db)
  ∧ Tg ∈ tag_set C (add_tag C Tg db)
  ∧ C ∈ cookbook_set Tg (add_tag C Tg db).
Proof.
  intros HC HT. rewrite !elem_of_tag_set, !elem_of_cookbook_set.
  split; [tauto|].
  assert (tag_rows (add_tag C Tg db) = tag_rows db
          ∧ cookbook_rows (add_tag C Tg db) = cookbook_rows db) as [-> ->]
    by (by rewrite add_tag_writes_joins).
  pose proof (add_tag_joins C Tg db). tauto.
Qed.

Lemma tag_relation_two_sided_witness :
  Sample.tag 2 "spicy" 7
  ∈ tag_set (Sample.cookbook 2 true)
      (add_tag (Sample.cookbook 2 true) (Sample.tag 2 "spicy" 7) Sample.kitchen).
Proof.
  apply (tag_relation_two_sided (Sample.cookbook 2 true)
           (Sample.tag 2 "spicy" 7) Sample.kitchen).
  - simpl. right. left.
  - simpl. right. left.
Defined.



(** ** What [add_tag] keeps *)

Lemma pk_unique_snoc {A} `{Model A} (x : A) (rows : list A) :
  pk_unique rows → pk x = next_pk rows → pk_unique (rows ++ [x]).
Proof.
  unfold pk_unique. intros Hu Hx. rewrite fmap_app. apply NoDup_app.
  split; [done|]. split; [|apply NoDup_singleton].
  intros k Hk Hk'. apply list_elem_of_singleton in Hk'. subst k.
  apply list_elem_of_fmap in Hk as (y & Heq & Hy).
  apply next_pk_fresh in Hy. lia.
Qed.

(** X14: [add_tag] keeps the keys of all tables unique and the pairs of
    the join table unique: from a store where no (cookbook, tag) pair has
    two join rows it never makes one.  Called with a stored Cookbook and a
    stored tag it leaves no row that refers to a missing one. *)
Theorem add_tag_keeps_integrity (C : Cookbook) (Tg : CookbookTag) (db : Store) :
  (keys_unique db → keys_unique (add_tag C Tg db))
  ∧ (tcr_pair_unique db → tcr_pair_unique (add_tag C Tg db))
  ∧ (cookbook_id C ∈ pk <$> cookbook_rows db →
     tag_id Tg ∈ pk <$> tag_rows db →
     references_kept db → references_kept (add_tag C Tg db)).
Proof.
  destruct (exists_ (tcr_filter C Tg db)) eqn:Hq.
  { by rewrite add_tag_joined. }
  rewrite add_tag_fresh by done. split; [|split].
  - intros (? & ? & ? & ? & ? & ?). repeat split; simpl; try done.
    by apply pk_unique_snoc.
  - unfold tcr_pair_unique. simpl. intros Hu. rewrite fmap_app.
    apply NoDup_app. split; [done|]. split; [|apply NoDup_singleton].
    intros p (r & -> & Hr)%list_elem_of_fmap Hp%list_elem_of_singleton.
    simpl in Hp. apply not_true_iff_false in Hq. apply Hq.
    apply tcr_filter_joined. exists r. split; [done|]. by simplify_eq.
  - intros HC HT (Hsc & Hrc & Hrt & Hrs & Hrm).
    repeat split; simpl; try done; intros r [Hr | ->%list_elem_of_singleton]%elem_of_app;
      auto.
Qed.

Lemma add_tag_keeps_integrity_witness :
  keys_unique (add_tag (Sample.cookbook 2 true) (Sample.tag 1 "quick" 0)
                 Sample.kitchen)
  ∧ references_kept (add_tag (Sample.cookbook 2 true) (Sample.tag 1 "quick" 0)
                       Sample.kitchen).
Proof.
  destruct (add_tag_keeps_integrity (Sample.cookbook 2 true)
              (Sample.tag 1 "quick" 0) Sample.kitchen) as (Hkeys & _ & Hrefs).
  split.
  - apply Hkeys, kitchen_keys.
  - apply Hrefs; [apply (bool_decide_unpack _); by vm_compute..|].
    apply kitchen_references.
Defined.

(** ** Associating, then recounting *)

(** X15: with the key of Cookbook intact and the Cookbook stored,
    recomputing the count of a tag after [add_tag] gives one more than
    recomputing it before when the pair was not joined, the same when it
    was; the recomputed count of every other tag is the same either
    way. *)
Theorem add_tag_then_update_cookbook_sum (C : Cookbook) (Tg : CookbookTag)
    (db : Store) :
  pk_unique (cookbook_rows db) →
  cookbook_id C ∈ pk <$> cookbook_rows db →
  let joined :=
    ∃ r, r ∈ tcr_rows db
         ∧ tcr_cookbook_id r = cookbook_id C ∧ tcr_tag_id r = tag_id Tg in
  let recount db T := tag_cookbook_sum (update_cookbook_sum T db).1 in
  (joined → recount (add_tag C Tg db) Tg = recount db Tg)
  ∧ (¬ joined → recount (add_tag C Tg db) Tg = (recount db Tg + 1)%Z)
  ∧ (∀ T', tag_id T' ≠ tag_id Tg →
           recount (add_tag C Tg db) T' = recount db T').
Proof.
  intros Hu HC. simpl. unfold count. split; [|split].
  - intros Hj%tcr_filter_joined. by rewrite add_tag_joined.
  - intros Hno. rewrite <-tcr_filter_joined, not_true_iff_false in Hno.
    rewrite add_tag_fresh by done.
    rewrite !length_cookbook_set by done. simpl.
    rewrite filter_app, length_app, filter_cons_True by done. simpl. lia.
  - intros T' Hne. destruct (exists_ (tcr_filter C Tg db)) eqn:Hq.
    + by rewrite add_tag_joined.
    + rewrite add_tag_fresh by done.
      rewrite !length_cookbook_set by done. simpl.
      rewrite filter_app, length_app, filter_cons_False; [simpl; lia|].
      simpl. intros [_ ?]. congruence.
Qed.

Lemma add_tag_then_update_cookbook_sum_witness :
  tag_cookbook_sum
    (update_cookbook_sum (Sample.tag 1 "quick" 0)
       (add_tag (Sample.cookbook 2 true) (Sample.tag 1 "quick" 0)
          Sample.kitchen)).1
  = (tag_cookbook_sum
       (update_cookbook_sum (Sample.tag 1 "quick" 0) Sample.kitchen).1 + 1)%Z.
Proof.
  destruct (add_tag_then_update_cookbook_sum (Sample.cookbook 2 true)
              (Sample.tag 1 "quick" 0) Sample.kitchen) as (_ & Hmore & _).
  - apply (bool_decide_unpack _). by vm_compute.
  - apply (bool_decide_unpack _). by vm_compute.
  - apply Hmore. simpl. intros (r & ->%list_elem_of_singleton & Hc & _). done.
Defined.

(** ** Text *)

(** X16: the [repr] of a Cookbook, of a CookbookTag and of a Step are
    different texts whatever the names are, and each gives the name back:
    two Cookbooks, two tags or two Steps with the same [repr] have the
    same name.  The [repr] of a Step carries both prefixes. *)
Theorem repr_tells_apart (c c' : Cookbook) (t t' : CookbookTag) (s s' : Step) :
  cookbook_repr c ≠ tag_repr t
  ∧ cookbook_repr c ≠ step_repr s
  ∧ tag_repr t ≠ step_repr s
  ∧ (cookbook_repr c = cookbook_repr c' → cookbook_name c = cookbook_name c')
  ∧ (tag_repr t = tag_repr t' → tag_name t = tag_name t')
  ∧ (step_repr s = step_repr s' → step_name s = step_name s')
  ∧ step_repr s = "<CookbookStep><步骤>" +:+ step_name s.
Proof.
  unfold cookbook_repr, tag_repr, step_repr, step_str, tag_str.
  repeat split; cbv; congruence.
Qed.

Lemma repr_tells_apart_witness :
  cookbook_name (Sample.cookbook 1 false) = cookbook_name (Sample.cookbook 2 true).
Proof.
  destruct (repr_tells_apart (Sample.cookbook 1 false) (Sample.cookbook 2 true)
              (Sample.tag 1 "quick" 0) (Sample.tag 1 "quick" 0)
              (Sample.step 1 1) (Sample.step 1 1))
    as (_ & _ & _ & Hname & _).
  by apply Hname.
Defined.

(** X17: the text of a join row read from the table is there exactly
    when both rows it refers to are stored, and is then their two names
    around [" - "]; with a reference to a missing row the lookup fails. *)
Theorem join_row_text (db : Store) (r : TagCookbookRelationship)
    (l : MaterialStepRelationship) :
  (is_Some (tcr_str r db) ↔
   tcr_cookbook_id r ∈ pk <$> cookbook_rows db
   ∧ tcr_tag_id r ∈ pk <$> tag_rows db)
  ∧ (is_Some (msr_str l db) ↔
     msr_step_id l ∈ pk <$> step_rows db
     ∧ msr_material_id l ∈ pk <$> material_rows db)
  ∧ (∀ text, tcr_str r db = Some text →
       ∃ c t, c ∈ cookbook_rows db ∧ cookbook_id c = tcr_cookbook_id r
              ∧ t ∈ tag_rows db ∧ tag_id t = tcr_tag_id r
              ∧ text = cookbook_name c +:+ " - " +:+ tag_name t)
  ∧ (∀ text, msr_str l db = Some text →
       ∃ s m, s ∈ step_rows db ∧ step_id s = msr_step_id l
              ∧ m ∈ material_rows db ∧ material_id m = msr_material_id l
              ∧ text = step_name s +:+ " - " +:+ material_name m).
Proof.
  unfold tcr_str, msr_str. rewrite <-!get_row_is_Some.
  split; [|split; [|split]].
  - destruct (get_row _ (cookbook_rows db)), (get_row _ (tag_rows db)); simpl;
      split; try (intros [[? [=]] [? [=]]]); try (by intros [? [=]]); eauto.
  - destruct (get_row _ (step_rows db)), (get_row _ (material_rows db)); simpl;
      split; try (intros [[? [=]] [? [=]]]); try (by intros [? [=]]); eauto.
  - intros text.
    destruct (get_row _ (cookbook_rows db)) as [c|] eqn:Hc; [|done].
    destruct (get_row _ (tag_rows db)) as [t|] eqn:Ht; [|done].
    simpl. intros ?; simplify_eq.
    apply get_row_Some in Hc as [? ?], Ht as [? ?]. exists c, t. eauto 10.
  - intros text.
    destruct (get_row _ (step_rows db)) as [s|] eqn:Hs; [|done].
    destruct (get_row _ (material_rows db)) as [m|] eqn:Hm; [|done].
    simpl. intros ?; simplify_eq.
    apply get_row_Some in Hs as [? ?], Hm as [? ?]. exists s, m. eauto 10.
Qed.

Lemma join_row_text_witness :
  tcr_str (Sample.tagged 1 1 1) Sample.kitchen = Some " - quick"
  ∧ ∃ c t, c ∈ cookbook_rows Sample.kitchen ∧ cookbook_id c = 1%Z
           ∧ t ∈ tag_rows Sample.kitchen ∧ tag_id t = 1%Z
           ∧ " - quick" = cookbook_name c +:+ " - " +:+ tag_name t.
Proof.
  split; [done|].
  destruct (join_row_text Sample.kitchen (Sample.tagged 1 1 1)
              (Sample.link 1 1 3 0)) as (_ & _ & Htext & _).
  by apply Htext.
Defined.

(** ** More on the count and on the aggregate view *)

(** X18: [update_cookbook_sum] keeps the keys of all tables unique, keeps
    every reference pointing to a stored row and leaves the join table as
    it is. *)
Theorem update_cookbook_sum_keeps_integrity (T : CookbookTag) (db : Store) :
  let db' := (update_cookbook_sum T db).2 in
  (keys_unique db → keys_unique db')
  ∧ (references_kept db → references_kept db')
  ∧ tcr_rows db' = tcr_rows db.
Proof.
  simpl. split; [|split; [|done]].
  - intros (? & ? & ? & ? & ? & ?). repeat split; simpl; try done.
    by apply pk_unique_save_row.
  - intros (Hsc & Hrc & Hrt & Hrs & Hrm). repeat split; simpl; try done.
    intros r Hr. specialize (Hrt r Hr).
    unfold pk_unique. rewrite pk_save_row. case_decide; [done|].
    apply elem_of_app. by left.
Qed.

Lemma update_cookbook_sum_keeps_integrity_witness :
  keys_unique (update_cookbook_sum (Sample.tag 9 "new" 0) Sample.kitchen).2
  ∧ references_kept (update_cookbook_sum (Sample.tag 9 "new" 0) Sample.kitchen).2.
Proof.
  destruct (update_cookbook_sum_keeps_integrity (Sample.tag 9 "new" 0)
              Sample.kitchen) as (Hkeys & Hrefs & _).
  split.
  - apply Hkeys, kitchen_keys.
  - apply Hrefs, kitchen_references.
Defined.

(** X19: the [materials] of a Cookbook are the Materials its stored Steps
    list: a Material is among them exactly when [get_material_set] of
    some stored Step owned by the Cookbook holds it. *)
Theorem materials_of_steps (C : Cookbook) (db : Store) (M : Material) :
  M ∈ materials C db ↔
  ∃ S, S ∈ step_rows db ∧ step_cookbook_id S = cookbook_id C
       ∧ M ∈ get_material_set S db.
Proof.
  rewrite elem_of_materials. split.
  - intros (HM & s & r & Hs & Hown & Hr & Hrs & Hrm).
    exists s. split; [done|]. split; [done|].
    apply elem_of_get_material_set. eauto.
  - intros (S & HS & Hown & [HM (r & Hr & Hrm & Hrs)]%elem_of_get_material_set).
    split; [done|]. exists S, r. eauto.
Qed.
